(** * Boot-script controller of the boot service: a shallow embedding

    The development follows [pkg/controllers/bootscript/controller.go]
    (identifier classification, node resolution, configuration scoring and
    selection, script generation with the result cache), the flexible
    controller with its external node provider, and the [Validate] method
    of the [BootConfiguration] resource.

    Conventions.
    - Go [string]s are byte strings: [string] of Rocq, one [ascii] per byte.
    - Go [int] is the 64-bit signed integer of the usual build targets; it is
      a [Z] and every addition of the code is wrapped by [wrap64].
    - A Go result [(v, err)] is a [Result]: [Ok v] when [err == nil].
    - The logger only writes diagnostics; it is not part of the model. *)

From Stdlib Require Import ZArith Ascii String List Lia Permutation Sorted.
From stdpp Require Import base option list gmap strings.

Local Open Scope Z_scope.

(** ** Go runtime pieces used by the controller *)

Module Go.

(** A Go [error] value is identified with its message, [err.Error()]. *)
Definition error := string.

Inductive Result (A : Type) : Type :=
| Ok (v : A)
| Err (e : error).
Arguments Ok {A} v.
Arguments Err {A} e.

Definition is_ok {A} (r : Result A) : bool :=
  match r with Ok _ => true | Err _ => false end.

(** Two's complement wrap-around of the 64-bit [int]. *)
Definition wrap64 (x : Z) : Z := (x + 2 ^ 63) mod 2 ^ 64 - 2 ^ 63.

Definition max_int64 : Z := 2 ^ 63 - 1.
Definition min_int64 : Z := - 2 ^ 63.
Definition max_uint64 : Z := 2 ^ 64 - 1.

(** *** [strings.EqualFold]

    Byte-wise comparison under ASCII case folding.  Go folds every Unicode
    code point; on ASCII strings (MAC addresses are) the two coincide. *)
Definition to_lower (c : ascii) : ascii :=
  let n := nat_of_ascii c in
  if ((65 <=? n)%nat && (n <=? 90)%nat)%bool then ascii_of_nat (n + 32) else c.

Fixpoint fold_case (s : string) : string :=
  match s with
  | EmptyString => EmptyString
  | String c s' => String (to_lower c) (fold_case s')
  end.

Definition EqualFold (s t : string) : bool :=
  String.eqb (fold_case s) (fold_case t).

(** *** [strconv.Atoi]

    [Atoi] accepts an optional sign followed by one or more decimal digits.
    A syntax error returns the value 0; a value outside [int] returns the
    nearest bound together with a range error. *)
Definition is_digit (c : ascii) : bool :=
  let n := nat_of_ascii c in ((48 <=? n)%nat && (n <=? 57)%nat)%bool.

Definition digit_val (c : ascii) : Z := Z.of_nat (nat_of_ascii c) - 48.

Inductive UintResult : Type :=
| UintOk (n : Z)
| UintSyntax
| UintRange.

(** The digit loop of [ParseUint] in base 10 with bit size 64. *)
Fixpoint parse_uint_loop (n : Z) (s : string) : UintResult :=
  match s with
  | EmptyString => UintOk n
  | String c s' =>
      if is_digit c then
        if (max_uint64 / 10 + 1 <=? n) then UintRange
        else
          let n1 := n * 10 + digit_val c in
          if (max_uint64 <? n1) then UintRange else parse_uint_loop n1 s'
      else UintSyntax
  end.

Definition ParseUint (s : string) : UintResult :=
  match s with
  | EmptyString => UintSyntax
  | _ => parse_uint_loop 0 s
  end.

(** [strconv.Quote] of a string without characters to escape. *)
Definition quoted (s : string) : string :=
  let q := String (ascii_of_nat 34) EmptyString in (q +:+ s +:+ q)%string.

Definition syntax_error (s : string) : error :=
  ("strconv.Atoi: parsing " +:+ quoted s +:+ ": invalid syntax")%string.

Definition range_error (s : string) : error :=
  ("strconv.Atoi: parsing " +:+ quoted s +:+ ": value out of range")%string.

(** [Atoi s] is the pair of the returned [int] and the returned error
    ([None] for [nil]). *)
Definition Atoi (s0 : string) : Z * option error :=
  match s0 with
  | EmptyString => (0, Some (syntax_error s0))
  | String c rest =>
      let neg := Ascii.eqb c "-" in
      let s := if (Ascii.eqb c "+" || neg)%bool then rest else s0 in
      match ParseUint s with
      | UintSyntax => (0, Some (syntax_error s0))
      | UintRange =>
          if neg then (min_int64, Some (range_error s0))
          else (max_int64, Some (range_error s0))
      | UintOk un =>
          if (negb neg && (2 ^ 63 <=? un))%bool
          then (max_int64, Some (range_error s0))
          else if (neg && (2 ^ 63 <? un))%bool
          then (min_int64, Some (range_error s0))
          else ((if neg then - un else un), None)
      end
  end.

(** *** [strings.ReplaceAll]

    Non-overlapping occurrences of [old] are replaced from left to right.
    The controller only calls it with the two fixed, non-empty template
    markers; for an empty [old] the model returns [s] unchanged. *)
Fixpoint strip_prefix (p s : string) : option string :=
  match p with
  | EmptyString => Some s
  | String a p' =>
      match s with
      | EmptyString => None
      | String b s' => if Ascii.eqb a b then strip_prefix p' s' else None
      end
  end.

Fixpoint replace_from (fuel : nat) (s old new : string) : string :=
  match fuel with
  | O => s
  | S fuel' =>
      match strip_prefix old s with
      | Some rest => (new +:+ replace_from fuel' rest old new)%string
      | None =>
          match s with
          | EmptyString => EmptyString
          | String c s' => String c (replace_from fuel' s' old new)
          end
      end
  end.

Definition ReplaceAll (s old new : string) : string :=
  match old with
  | EmptyString => s
  | _ => replace_from (String.length s) s old new
  end.

(** [Contains s sub]: [sub] occurs in [s] ([strings.Contains]). *)
Definition Contains (s sub : string) : Prop :=
  exists a b, s = (a +:+ sub +:+ b)%string.

End Go.

Import Go.

(** ** The [validation] package

    Field-level syntax checks (XName, MAC, URL or path) are collaborators of
    the controller and of [Validate]; they are predicates on strings, taken
    as an interface. *)

Module validation.

Class Package : Type := {
  ValidateXName : string -> bool;
  ValidateXNameOrDefault : string -> bool;
  ValidateMAC : string -> bool;
  ValidateURLOrPath : string -> bool;
  ValidateURLOrPathOptional : string -> bool
}.

End validation.

(** ** The [node] resource *)

Module node.

Record NodeSpec : Type := {
  XName : string;
  Hostname : string;
  NID : Z;                (* int32 *)
  BootMAC : string;
  Groups : list string
}.

Record Node : Type := { Spec : NodeSpec }.

End node.

(** ** The [bootconfiguration] resource and its [Validate] method *)

Module bootconfiguration.

Record BootConfigurationSpec : Type := {
  Hosts : list string;
  MACs : list string;
  NIDs : list Z;          (* []int32 *)
  Groups : list string;
  Profile : string;
  Kernel : string;
  Initrd : string;
  Params : string;
  Priority : Z            (* int *)
}.

(** [Name] is the metadata name returned by [GetName]; the status block is
    never read by the code below and is left out. *)
Record BootConfiguration : Type := {
  Name : string;
  Spec : BootConfigurationSpec
}.

Definition GetName (r : BootConfiguration) : string := Name r.

Section Validate.
Context {V : validation.Package}.

(** A [for ... range] loop that returns at the first element failing
    [valid]: the element it stopped at, if any. *)
Fixpoint first_invalid (valid : string -> bool) (l : list string) : option string :=
  match l with
  | [] => None
  | x :: l' => if valid x then first_invalid valid l' else Some x
  end.

(** [Validate] returns [None] for [nil] and [Some e] for the error [e]. *)
Definition Validate (r : BootConfiguration) : option error :=
  let s := Spec r in
  if String.eqb (Kernel s) "" then Some "kernel field is required"%string
  else
    match first_invalid validation.ValidateXNameOrDefault (Hosts s) with
    | Some host => Some ("invalid host XName format: " +:+ host)%string
    | None =>
    match first_invalid validation.ValidateMAC (MACs s) with
    | Some mac => Some ("invalid MAC address format: " +:+ mac)%string
    | None =>
      if negb (validation.ValidateURLOrPath (Kernel s))
      then Some ("invalid kernel URL or path: " +:+ Kernel s)%string
      else if (negb (String.eqb (Initrd s) "")
               && negb (validation.ValidateURLOrPathOptional (Initrd s)))%bool
      then Some ("invalid initrd URL or path: " +:+ Initrd s)%string
      else if ((Priority s <? 0) || (100 <? Priority s))%bool
      then Some "priority must be between 0 and 100"%string
      else if ((length (Hosts s) =? 0)%nat && (length (MACs s) =? 0)%nat
               && (length (NIDs s) =? 0)%nat && (length (Groups s) =? 0)%nat)%bool
      then Some "at least one targeting method (hosts, macs, nids, or groups) must be specified"%string
      else None
    end
    end.

End Validate.

End bootconfiguration.

(** ** The [sort] package

    [sort.Slice] reorders a slice in place with the given [less]; it is not
    stable and its algorithm is not part of its contract.  The controller is
    therefore written over any implementation that returns a permutation of
    its input in which no element is [less] than an earlier one, whenever
    [less] is a strict weak order. *)

Module sort.

Definition strict_weak {A} (less : A -> A -> bool) : Prop :=
  (forall a b, less a b = true -> less b a = false) /\
  (forall a b c, less b a = false -> less c b = false -> less c a = false).

Class Sorter : Type := {
  Slice : forall {A : Type}, (A -> A -> bool) -> list A -> list A;
  Slice_perm : forall A (less : A -> A -> bool) (l : list A),
      Permutation l (Slice less l);
  Slice_sorted : forall A (less : A -> A -> bool) (l : list A),
      strict_weak less ->
      StronglySorted (fun a b => less b a = false) (Slice less l)
}.

(** Insertion sort, the algorithm [sort.Slice] runs on slices of at most 12
    elements: each element moves left past the elements it is [less] than. *)
Fixpoint insert {A} (less : A -> A -> bool) (x : A) (l : list A) : list A :=
  match l with
  | [] => [x]
  | y :: l' => if less y x then y :: insert less x l' else x :: l
  end.

Definition insertion_sort {A} (less : A -> A -> bool) (l : list A) : list A :=
  fold_right (insert less) [] l.

End sort.

(** ** The script cache

    The file of [ScriptCache] is not among the sources; the cache is
    modelled from its description in the specification.  Time is in
    nanoseconds, as [time.Duration]. *)

Module cache.

(** Modelled from the spec: the [CacheEntry] record, [{ script,
    nodeIdentifier, configName, expiresAt }]. *)
Record CacheEntry : Type := {
  Script : string;
  NodeXName : string;
  ConfigName : string;
  ExpiresAt : Z
}.

(** Modelled from the spec: the [ScriptCache] type, a map from keys to
    entries with one time-to-live for all of them. *)
Record ScriptCache : Type := {
  entries : gmap string CacheEntry;
  ttl : Z
}.

Definition Minute : Z := 60 * 1000000000.

(** Modelled from the spec: [NewScriptCache], an empty cache with the given
    time-to-live. *)
Definition NewScriptCache (ttl : Z) : ScriptCache :=
  {| entries := ∅; ttl := ttl |}.

(** Modelled from the spec: [ScriptCache.Get], [get(key) -> script | miss];
    an entry is never returned past its expiry, and an expired entry is a
    miss. *)
Definition Get (c : ScriptCache) (now : Z) (key : string) : option string :=
  match entries c !! key with
  | Some e => if (ExpiresAt e <? now) then None else Some (Script e)
  | None => None
  end.

(** Modelled from the spec: [ScriptCache.Set],
    [set(key, script, nodeRef, configRef)]; the entry replaces any entry of
    the same key and expires one time-to-live after it was stored. *)
Definition Set_ (c : ScriptCache) (now : Z) (key script nodeXName configName : string)
  : ScriptCache :=
  {| entries := <[key := {| Script := script; NodeXName := nodeXName;
                            ConfigName := configName;
                            ExpiresAt := now + ttl c |}]> (entries c);
     ttl := ttl c |}.

End cache.

(** ** The resource client and the node provider *)

Module client.

(** What one request observes of the resource store: the answers of
    [GetNodes] and [GetBootConfigurations]. *)
Record Client : Type := {
  GetNodes : Result (list node.Node);
  GetBootConfigurations : Result (list bootconfiguration.BootConfiguration)
}.

End client.

(** Queries sent to the collaborators, in the order they were made. *)
Inductive Call : Type :=
| CallGetNodes
| CallGetBootConfigurations
| CallResolveNodeByIdentifier (identifier : string).

(** ** Package [bootscript] *)

Module bootscript.

Import node bootconfiguration.

Inductive IdentifierType : Type :=
| IdentifierXName
| IdentifierNID
| IdentifierMAC
| IdentifierUnknown.

Record NodeIdentifier : Type := {
  Value : string;
  Type_ : IdentifierType
}.

Record configCandidate : Type := {
  config : BootConfiguration;
  score : Z
}.

(** The mutable part of a controller: its cache, and the trace of the
    queries it has sent. *)
Record State : Type := {
  cache_ : cache.ScriptCache;
  calls : list Call
}.

(** What a request reads but does not change: the store and the clock. *)
Record Env : Type := {
  client_ : client.Client;
  now : Z
}.

Definition M (A : Type) : Type := State -> A * State.

Definition ret {A} (a : A) : M A := fun st => (a, st).

Definition bind {A B} (m : M A) (k : A -> M B) : M B :=
  fun st => let (a, st') := m st in k a st'.

Declare Scope ctrl_scope.
Delimit Scope ctrl_scope with ctrl.
Notation "x <- m ;; k" := (bind m (fun x => k))
  (at level 100, m at next level, right associativity) : ctrl_scope.
Notation "m ;;; k" := (bind m (fun _ => k))
  (at level 100, right associativity) : ctrl_scope.

Definition record_call (c : Call) : M unit :=
  fun st => (tt, {| cache_ := cache_ st; calls := calls st ++ [c] |}).

(** [NewBootScriptController]: a controller starts with an empty cache of
    five minutes; it has sent no query yet. *)
Definition NewBootScriptController : State :=
  {| cache_ := cache.NewScriptCache (5 * cache.Minute); calls := [] |}.

(** The node resolver of an external provider ([NodeProvider] interface;
    health check and statistics play no part in script generation). *)
Record NodeProvider : Type := {
  ResolveNodeByIdentifier : string -> Result Node
}.

(** The parts of the package whose files are not among the sources: the two
    script templates, the renderer of a full script, and the cache key. *)
Class Package : Type := {
  MinimalIPXETemplate : string;
  ErrorIPXETemplate : string;
  buildIPXEScript : BootConfiguration -> Node -> Result string;
  generateCacheKey : string -> string -> string
}.

Section Controller.
Context {V : validation.Package} {S : sort.Sorter} {P : Package}.

Local Open Scope ctrl_scope.

Definition cacheGet (env : Env) (key : string) : M (option string) :=
  fun st => (cache.Get (cache_ st) (now env) key, st).

Definition cacheSet (env : Env) (key script nodeXName configName : string) : M unit :=
  fun st => (tt, {| cache_ := cache.Set_ (cache_ st) (now env) key script
                                nodeXName configName;
                    calls := calls st |}).

Definition clientGetNodes (env : Env) : M (Result (list Node)) :=
  record_call CallGetNodes ;;; ret (client.GetNodes (client_ env)).

Definition clientGetBootConfigurations (env : Env)
  : M (Result (list BootConfiguration)) :=
  record_call CallGetBootConfigurations ;;;
  ret (client.GetBootConfigurations (client_ env)).

(** [parseNodeIdentifier] determines the type of an identifier. *)
Definition parseNodeIdentifier (identifier : string) : NodeIdentifier :=
  if validation.ValidateXName identifier
  then {| Value := identifier; Type_ := IdentifierXName |}
  else
    let (nid, err) := Atoi identifier in
    if (bool_decide (err = None) && (0 <=? nid))%bool
    then {| Value := identifier; Type_ := IdentifierNID |}
    else if validation.ValidateMAC identifier
    then {| Value := identifier; Type_ := IdentifierMAC |}
    else {| Value := identifier; Type_ := IdentifierUnknown |}.

(** The test made on one node by the scan of [resolveNode]. *)
Definition nodeMatches (identifier : NodeIdentifier) (nodeItem : Node) : bool :=
  match Type_ identifier with
  | IdentifierXName => String.eqb (XName (node.Spec nodeItem)) (Value identifier)
  | IdentifierNID =>
      let nid := fst (Atoi (Value identifier)) in
      NID (node.Spec nodeItem) =? nid
  | IdentifierMAC => EqualFold (BootMAC (node.Spec nodeItem)) (Value identifier)
  | IdentifierUnknown => false
  end.

Fixpoint scanNodes (identifier : NodeIdentifier) (nodes : list Node) : option Node :=
  match nodes with
  | [] => None
  | nodeItem :: rest =>
      if nodeMatches identifier nodeItem then Some nodeItem
      else scanNodes identifier rest
  end.

(** [resolveNode] finds a node based on the identifier. *)
Definition resolveNode (env : Env) (identifier : NodeIdentifier) : M (Result Node) :=
  r <- clientGetNodes env ;;
  match r with
  | Err err => ret (Err ("getting nodes: " +:+ err)%string)
  | Ok nodes =>
      match scanNodes identifier nodes with
      | Some nodeItem => ret (Ok nodeItem)
      | None =>
          ret (Err ("node not found for identifier " +:+ Value identifier)%string)
      end
  end.

(** [matchesPattern]: the full wildcard or an exact match. *)
Definition matchesPattern (pattern value : string) : bool :=
  if String.eqb pattern "*" then true
  else if String.eqb pattern value then true
  else false.

(** [calculateConfigScore]: the four loops over the targeting lists, each on
    the running [score], then the base score of a catch-all. *)
Definition calculateConfigScore (config : BootConfiguration) (node : Node) : Z :=
  let cs := bootconfiguration.Spec config in
  let ns := node.Spec node in
  let score := 0 in
  let score :=
    fold_left (fun score host =>
                 if (matchesPattern host (XName ns)
                     || matchesPattern host (Hostname ns))%bool
                 then wrap64 (score + 50) else score)
              (Hosts cs) score in
  let score :=
    fold_left (fun score mac =>
                 if EqualFold mac (BootMAC ns) then wrap64 (score + 100) else score)
              (MACs cs) score in
  let score :=
    fold_left (fun score nid =>
                 if nid =? NID ns then wrap64 (score + 75) else score)
              (NIDs cs) score in
  let score :=
    fold_left (fun score configGroup =>
                 fold_left (fun score nodeGroup =>
                              if String.eqb configGroup nodeGroup
                              then wrap64 (score + 25) else score)
                           (node.Groups ns) score)
              (bootconfiguration.Groups cs) score in
  if ((score =? 0) && (length (Hosts cs) =? 0)%nat && (length (MACs cs) =? 0)%nat
      && (length (NIDs cs) =? 0)%nat
      && (length (bootconfiguration.Groups cs) =? 0)%nat)%bool
  then 1 else score.

(** The effective profile: an empty profile stands for ["default"]. *)
Definition effectiveProfile (profile : string) : string :=
  if String.eqb profile "" then "default"%string else profile.

(** The candidates of [findBestCandidate]: the configurations of the target
    profile that score above 0, in the order of [configs] (the loop appends
    to [candidates]; each candidate holds its own configuration, as the
    per-iteration loop variables of Go 1.22 and later give). *)
Fixpoint candidatesFor (configs : list BootConfiguration) (node : Node)
  (targetProfile : string) : list configCandidate :=
  match configs with
  | [] => []
  | configItem :: rest =>
      let configProfile := effectiveProfile (Profile (bootconfiguration.Spec configItem)) in
      let effectiveTarget := effectiveProfile targetProfile in
      if negb (String.eqb configProfile effectiveTarget)
      then candidatesFor rest node targetProfile
      else
        let score := calculateConfigScore configItem node in
        if (0 <? score)
        then {| config := configItem; score := score |}
               :: candidatesFor rest node targetProfile
        else candidatesFor rest node targetProfile
  end.

(** The [less] function handed to [sort.Slice]: score descending, then
    priority descending. *)
Definition candidateLess (a b : configCandidate) : bool :=
  if negb (score a =? score b) then (score b <? score a)
  else (Priority (bootconfiguration.Spec (config b))
        <? Priority (bootconfiguration.Spec (config a))).

(** The closure [findBestCandidate] of [findBootConfiguration]. *)
Definition findBestCandidate (configs : list BootConfiguration) (node : Node)
  (targetProfile : string) : option BootConfiguration :=
  let candidates := candidatesFor configs node targetProfile in
  if (length candidates =? 0)%nat then None
  else
    match sort.Slice candidateLess candidates with
    | first :: _ => Some (config first)
    | [] => None
    end.

(** [findBootConfiguration] finds the best matching configuration. *)
Definition findBootConfiguration (env : Env) (node : Node) (profile : string)
  : M (Result BootConfiguration) :=
  r <- clientGetBootConfigurations env ;;
  match r with
  | Err err => ret (Err ("getting boot configurations: " +:+ err)%string)
  | Ok configs =>
      let requested :=
        if (negb (String.eqb profile "") && negb (String.eqb profile "default"))%bool
        then findBestCandidate configs node profile
        else None in
      match requested with
      | Some match_ => ret (Ok match_)
      | None =>
          match findBestCandidate configs node "default" with
          | Some match_ => ret (Ok match_)
          | None =>
              ret (Err ("no matching configurations found for node "
                        +:+ XName (node.Spec node))%string)
          end
      end
  end.

Definition generateMinimalScript (identifier : string) : string :=
  ReplaceAll MinimalIPXETemplate "{{.Identifier}}" identifier.

Definition generateErrorScript (errorMsg : string) : string :=
  ReplaceAll ErrorIPXETemplate "{{.Error}}" errorMsg.

(** [GenerateBootScript] generates an iPXE boot script for a node. *)
Definition GenerateBootScript (env : Env) (identifier profile : string)
  : M (string * option error) :=
  cached <- cacheGet env (generateCacheKey identifier profile) ;;
  match cached with
  | Some script => ret (script, None)
  | None =>
      let nodeID := parseNodeIdentifier identifier in
      r <- resolveNode env nodeID ;;
      match r with
      | Err err =>
          ret (generateErrorScript ("Node resolution failed: " +:+ err)%string, None)
      | Ok node =>
          r <- findBootConfiguration env node profile ;;
          match r with
          | Err _ => ret (generateMinimalScript identifier, None)
          | Ok config =>
              match buildIPXEScript config node with
              | Err err =>
                  ret (generateErrorScript
                         ("Script generation failed: " +:+ err)%string, None)
              | Ok script =>
                  let configName := GetName config in
                  cacheSet env (generateCacheKey identifier configName) script
                           (XName (node.Spec node)) configName ;;;
                  ret (script, None)
              end
          end
      end
  end.

(** *** The flexible controller *)

Record FlexibleBootScriptController : Type := {
  nodeProvider : option NodeProvider;
  providerType : string
}.

Definition providerResolve (p : NodeProvider) (identifier : string) : M (Result Node) :=
  record_call (CallResolveNodeByIdentifier identifier) ;;;
  ret (ResolveNodeByIdentifier p identifier).

(** [GenerateBootScriptWithFallback]: standard resolution first, then the
    external provider. *)
Definition GenerateBootScriptWithFallback (c : FlexibleBootScriptController)
  (env : Env) (identifier : string) : M (string * option error) :=
  r <- GenerateBootScript env identifier "" ;;
  let (script, err) := r in
  match err with
  | None => ret (script, None)
  | Some _ =>
      match nodeProvider c with
      | None => ret (generateMinimalScript identifier, None)
      | Some provider =>
          r <- providerResolve provider identifier ;;
          match r with
          | Err _ => ret (generateMinimalScript identifier, None)
          | Ok node =>
              r <- GenerateBootScript env (XName (node.Spec node)) "" ;;
              let (script, err) := r in
              match err with
              | Some _ => ret (generateMinimalScript identifier, None)
              | None => ret (script, None)
              end
          end
      end
  end.

End Controller.

End bootscript.

(** ** Reference definitions

    Closed forms and predicates the properties below are stated with. *)

Module Spec.

Import node bootconfiguration bootscript.

(** Number of elements of [l] that satisfy [p]. *)
Definition count {A} (p : A -> bool) (l : list A) : Z :=
  Z.of_nat (length (List.filter p l)).

Fixpoint sum_over {A} (w : A -> Z) (l : list A) : Z :=
  match l with
  | [] => 0
  | x :: l' => w x + sum_over w l'
  end.

Definition hostMatches (n : Node) (host : string) : bool :=
  (matchesPattern host (XName (node.Spec n))
   || matchesPattern host (Hostname (node.Spec n)))%bool.

Definition macMatches (n : Node) (mac : string) : bool :=
  EqualFold mac (BootMAC (node.Spec n)).

Definition nidMatches (n : Node) (nid : Z) : bool := (nid =? NID (node.Spec n)).

(** Occurrences of the configured group in the group list of the node. *)
Definition groupOccurrences (n : Node) (configGroup : string) : Z :=
  count (String.eqb configGroup) (node.Groups (node.Spec n)).

(** The sum of the contributions of the four targeting lists: 50 per
    matching host pattern, 100 per matching MAC entry, 75 per matching NID
    entry, 25 per pair of a configured group and an equal group of the
    node. *)
Definition matchTotal (c : BootConfiguration) (n : Node) : Z :=
  let cs := bootconfiguration.Spec c in
  50 * count (hostMatches n) (Hosts cs)
  + 100 * count (macMatches n) (MACs cs)
  + 75 * count (nidMatches n) (NIDs cs)
  + 25 * sum_over (groupOccurrences n) (bootconfiguration.Groups cs).

Definition noTargeting (c : BootConfiguration) : bool :=
  let cs := bootconfiguration.Spec c in
  match Hosts cs, MACs cs, NIDs cs, bootconfiguration.Groups cs with
  | [], [], [], [] => true
  | _, _, _, _ => false
  end.

(** The score as the specification words it: 100 once if any configured MAC
    matches, 75 per matching NID, 50 per matching host pattern, 25 per
    configured group the node is a member of; 1 for a configuration without
    targeting fields. *)
Definition statedScore (c : BootConfiguration) (n : Node) : Z :=
  let cs := bootconfiguration.Spec c in
  if noTargeting c then 1
  else
    (if existsb (macMatches n) (MACs cs) then 100 else 0)
    + 75 * count (nidMatches n) (NIDs cs)
    + 50 * count (hostMatches n) (Hosts cs)
    + 25 * count (fun g => existsb (String.eqb g) (node.Groups (node.Spec n)))
                 (bootconfiguration.Groups cs).

(** The value of a string of decimal digits, without any bound. *)
Fixpoint decimal (acc : Z) (s : string) : option Z :=
  match s with
  | EmptyString => Some acc
  | String c s' => if is_digit c then decimal (acc * 10 + digit_val c) s' else None
  end.

(** The strings that parse as a non-negative integer: an optional sign and
    at least one digit, denoting a value of [0, 2^63 - 1] (after a minus
    sign: zero). *)
Definition nonNegativeInteger (s : string) : bool :=
  match s with
  | EmptyString => false
  | String c rest =>
      let neg := Ascii.eqb c "-" in
      let digits := if (Ascii.eqb c "+" || neg)%bool then rest else s in
      match digits with
      | EmptyString => false
      | _ =>
          match decimal 0 digits with
          | Some v => if neg then (v =? 0) else (v <=? max_int64)
          | None => false
          end
      end
  end.

(** The classification order of the specification. *)
Definition classify {V : validation.Package} (raw : string) : NodeIdentifier :=
  {| Value := raw;
     Type_ :=
       if validation.ValidateXName raw then IdentifierXName
       else if nonNegativeInteger raw then IdentifierNID
       else if validation.ValidateMAC raw then IdentifierMAC
       else IdentifierUnknown |}.

(** A non-default profile was requested. *)
Definition specificRequest (profile : string) : bool :=
  (negb (String.eqb profile "") && negb (String.eqb profile "default"))%bool.

(** [c] is a candidate for the target profile: one of the known
    configurations, of that effective profile, scoring above 0. *)
Definition eligible (configs : list BootConfiguration) (n : Node)
  (target : string) (c : BootConfiguration) : Prop :=
  In c configs
  /\ effectiveProfile (Profile (bootconfiguration.Spec c)) = effectiveProfile target
  /\ 0 < calculateConfigScore c n.

(** [c] is a candidate that no candidate beats: none has a higher score, and
    none of equal score has a higher priority. *)
Definition best (configs : list BootConfiguration) (n : Node)
  (target : string) (c : BootConfiguration) : Prop :=
  eligible configs n target c
  /\ forall c', eligible configs n target c' ->
       calculateConfigScore c' n < calculateConfigScore c n
       \/ (calculateConfigScore c' n = calculateConfigScore c n
           /\ Priority (bootconfiguration.Spec c') <= Priority (bootconfiguration.Spec c)).

(** The state after one more query has been sent. *)
Definition called (st : State) (c : Call) : State :=
  {| cache_ := cache_ st; calls := calls st ++ [c] |}.

(** The state after a script has been stored in the cache. *)
Definition stored (env : Env) (st : State) (key script nodeXName configName : string)
  : State :=
  {| cache_ := cache.Set_ (cache_ st) (now env) key script nodeXName configName;
     calls := calls st |}.

End Spec.

(** ** Example instances and scenarios

    Concrete collaborators for the scenarios evaluated below.  The
    validators follow the formats named in the controller (an XName is
    [x<cabinet>c<chassis>s<slot>b<blade>n<node>], a MAC is six pairs of
    hexadecimal digits separated by colons); templates, renderer and cache
    key are small stand-ins of the right shape: one marker per template, a
    key composed of the identifier and the profile or configuration name. *)

Module Sample.

Import node bootconfiguration bootscript.

Local Open Scope string_scope.

Fixpoint skip_digits (s : string) : string :=
  match s with
  | String c s' => if is_digit c then skip_digits s' else s
  | EmptyString => s
  end.

(** The letter [c] followed by at least one digit; the rest of the string. *)
Definition eat (c : ascii) (s : string) : option string :=
  match s with
  | String d (String e s') =>
      if (Ascii.eqb c d && is_digit e)%bool then Some (skip_digits s') else None
  | _ => None
  end.

Definition sampleValidateXName (s : string) : bool :=
  let step (o : option string) (c : ascii) :=
    match o with Some rest => eat c rest | None => None end in
  match fold_left step ["x"; "c"; "s"; "b"; "n"]%char (Some s) with
  | Some EmptyString => true
  | _ => false
  end.

Definition is_hex (c : ascii) : bool :=
  let n := nat_of_ascii (to_lower c) in
  (is_digit c || ((97 <=? n)%nat && (n <=? 102)%nat))%bool.

Fixpoint hex_groups (groups : nat) (s : string) : bool :=
  match groups, s with
  | 1%nat, String a (String b EmptyString) => (is_hex a && is_hex b)%bool
  | S groups', String a (String b (String c rest)) =>
      (is_hex a && is_hex b && Ascii.eqb c ":" && hex_groups groups' rest)%bool
  | _, _ => false
  end.

Definition sampleValidateMAC (s : string) : bool := hex_groups 6 s.

Definition has_prefix (p s : string) : bool :=
  match strip_prefix p s with Some _ => true | None => false end.

Definition sampleValidateURLOrPath (s : string) : bool :=
  (has_prefix "http://" s || has_prefix "https://" s || has_prefix "/" s)%bool.

#[export] Instance sampleValidation : validation.Package := {|
  validation.ValidateXName := sampleValidateXName;
  validation.ValidateXNameOrDefault :=
    fun s => (String.eqb s "default" || sampleValidateXName s)%bool;
  validation.ValidateMAC := sampleValidateMAC;
  validation.ValidateURLOrPath := sampleValidateURLOrPath;
  validation.ValidateURLOrPathOptional := sampleValidateURLOrPath
|}.

(** Modelled from the spec: templates with exactly one substitution point
    each, and a cache key that is the composite of the raw identifier and
    the profile or configuration name. *)
#[export] Instance samplePackage : Package := {|
  MinimalIPXETemplate := "#!ipxe echo No boot configuration for {{.Identifier}}; exit";
  ErrorIPXETemplate := "#!ipxe echo Boot script error: {{.Error}}; exit 1";
  buildIPXEScript := fun config node =>
    Ok ("#!ipxe kernel " +:+ Kernel (bootconfiguration.Spec config) +:+ " "
        +:+ Params (bootconfiguration.Spec config) +:+ " xname="
        +:+ XName (node.Spec node) +:+ "; initrd "
        +:+ Initrd (bootconfiguration.Spec config) +:+ "; boot");
  generateCacheKey := fun identifier profile => identifier +:+ ":" +:+ profile
|}.

Definition node0 : Node :=
  {| node.Spec := {| XName := "x1000c0s0b0n0"; Hostname := "nid000005";
                     NID := 5; BootMAC := "aa:bb:cc:dd:ee:ff";
                     node.Groups := ["compute"] |} |}.

Definition mkConfig (name : string) (hosts macs : list string) (nids : list Z)
  (groups : list string) (profile : string) (priority : Z) : BootConfiguration :=
  {| Name := name;
     bootconfiguration.Spec :=
       {| Hosts := hosts; MACs := macs; NIDs := nids;
          bootconfiguration.Groups := groups; Profile := profile;
          Kernel := "http://boot/vmlinuz"; Initrd := "http://boot/initrd.img";
          Params := "console=ttyS0"; Priority := priority |} |}.

(** Targets the boot MAC of [node0], priority 10. *)
Definition macConfig : BootConfiguration :=
  mkConfig "by-mac" [] ["aa:bb:cc:dd:ee:ff"] [] [] "" 10.

(** Targets NID 5, priority 90. *)
Definition nidConfig : BootConfiguration :=
  mkConfig "by-nid" [] [] [5] [] "" 90.

(** Targets the boot MAC and a group of [node0]. *)
Definition macGroupConfig : BootConfiguration :=
  mkConfig "by-mac-and-group" [] ["AA:BB:CC:DD:EE:FF"] [] ["compute"] "" 0.

(** Lists the boot MAC of [node0] in both spellings. *)
Definition twoSpellingsConfig : BootConfiguration :=
  mkConfig "two-spellings" [] ["aa:bb:cc:dd:ee:ff"; "AA:BB:CC:DD:EE:FF"] [] [] "" 0.

(** No targeting field, default profile. *)
Definition catchAll : BootConfiguration :=
  mkConfig "catch-all" [] [] [] [] "" 0.

(** Targets every node, profile ["gpu"]. *)
Definition gpuConfig : BootConfiguration :=
  mkConfig "gpu-all" ["*"] [] [] [] "gpu" 50.

Definition store (nodes : list Node) (configs : list BootConfiguration) : client.Client :=
  {| client.GetNodes := Ok nodes; client.GetBootConfigurations := Ok configs |}.

Definition at_time (cl : client.Client) (t : Z) : Env :=
  {| client_ := cl; now := t |}.

(** One second, in nanoseconds. *)
Definition second : Z := 1000000000.

(** A provider that knows identifier 9999 as [node0]. *)
Definition provider0 : NodeProvider :=
  {| ResolveNodeByIdentifier := fun identifier =>
       if String.eqb identifier "9999" then Ok node0
       else Err ("node " +:+ identifier +:+ " not found in YAML") |}.

Definition flexible0 : FlexibleBootScriptController :=
  {| nodeProvider := Some provider0; providerType := "yaml" |}.

End Sample.

(** ** The HSM-enhanced controller

    [EnhancedBootScriptController] of package [bootscript]: the basic
    controller together with the HSM integration service, of which script
    generation uses the node resolver only. *)

Module enhanced.

Import node bootscript.

Record EnhancedBootScriptController : Type := {
  hsmIntegration : NodeProvider
}.

Section Enhanced.
Context {V : validation.Package} {S : sort.Sorter} {P : Package}.

Local Open Scope ctrl_scope.

(** [GenerateBootScriptWithHSM]: standard resolution first, then the HSM. *)
Definition GenerateBootScriptWithHSM (c : EnhancedBootScriptController)
  (env : Env) (identifier : string) : M (string * option error) :=
  r <- GenerateBootScript env identifier "" ;;
  let (script, err) := r in
  match err with
  | None => ret (script, None)
  | Some _ =>
      r <- providerResolve (hsmIntegration c) identifier ;;
      match r with
      | Err _ => ret (generateMinimalScript identifier, None)
      | Ok node =>
          r <- GenerateBootScript env (XName (node.Spec node)) "" ;;
          let (script, err) := r in
          match err with
          | Some _ => ret (generateMinimalScript identifier, None)
          | None => ret (script, None)
          end
      end
  end.

End Enhanced.

End enhanced.

(** ** Construction and inspection of the flexible controller

    [NewFlexibleBootScriptController] and the methods of
    [FlexibleBootScriptController] beside script generation.  The packages
    [hsm] and [local] of the two provider kinds are collaborators, taken as
    an interface. *)

Module flexible.

Import bootscript.

(** A value of the statistics maps ([interface{}]): the controller stores
    strings and booleans; what a provider stores is of some type [Dyn]. *)
Inductive Any (Dyn : Type) : Type :=
| AnyString (s : string)
| AnyBool (b : bool)
| AnyDyn (d : Dyn).
Arguments AnyString {Dyn} s.
Arguments AnyBool {Dyn} b.
Arguments AnyDyn {Dyn} d.

(** A provider as the controller sees it: the [NodeProvider] interface, with
    the answers of one health check and one statistics query. *)
Record Provider (Dyn : Type) : Type := {
  resolver : NodeProvider;
  HealthCheck_ : option error;
  GetStats : gmap string (Any Dyn)
}.
Arguments resolver {Dyn} p.
Arguments HealthCheck_ {Dyn} p.
Arguments GetStats {Dyn} p.

Class Integrations : Type := {
  Dyn : Type;
  (** [hsm.IntegrationConfig] and [local.IntegrationConfig] *)
  HSMIntegrationConfig : Type;
  YAMLIntegrationConfig : Type;
  SyncEnabled : YAMLIntegrationConfig -> bool;
  YAMLFile : YAMLIntegrationConfig -> string;
  (** [hsm.DefaultIntegrationConfig] and [hsm.NewIntegrationService] *)
  hsm_DefaultIntegrationConfig : HSMIntegrationConfig;
  hsm_NewIntegrationService : HSMIntegrationConfig -> client.Client -> Provider Dyn;
  (** [local.DefaultIntegrationConfig] and [local.NewIntegrationService] *)
  local_DefaultIntegrationConfig : YAMLIntegrationConfig;
  local_NewIntegrationService :
    YAMLIntegrationConfig -> client.Client -> Result (Provider Dyn)
}.

Section Flexible.
Context {I : Integrations}.

Record ProviderConfig : Type := {
  Type_ : string;
  HSMConfig : option HSMIntegrationConfig;
  YAMLConfig : option YAMLIntegrationConfig
}.

(** The fields of [FlexibleBootScriptController] beside the embedded basic
    controller and the logger.  [syncProvider] is only set if the provider
    supports background synchronization. *)
Record Controller : Type := {
  nodeProvider : option (Provider Dyn);
  syncProvider : option (Provider Dyn);
  providerType : string
}.

(** The view of the controller that script generation uses. *)
Definition asFlexible (c : Controller) : FlexibleBootScriptController :=
  {| bootscript.nodeProvider := resolver <$> nodeProvider c;
     bootscript.providerType := providerType c |}.

(** [NewFlexibleBootScriptController] creates a controller with the
    specified provider. *)
Definition NewFlexibleBootScriptController (bootClient : client.Client)
  (config : ProviderConfig) : Result Controller :=
  if String.eqb (Type_ config) "hsm" then
    let hsmConfig :=
      match HSMConfig config with
      | None => hsm_DefaultIntegrationConfig
      | Some hsmConfig => hsmConfig
      end in
    let hsmIntegration := hsm_NewIntegrationService hsmConfig bootClient in
    Ok {| nodeProvider := Some hsmIntegration;
          syncProvider := Some hsmIntegration;
          providerType := Type_ config |}
  else if String.eqb (Type_ config) "yaml" then
    let yamlConfig :=
      match YAMLConfig config with
      | None => local_DefaultIntegrationConfig
      | Some yamlConfig => yamlConfig
      end in
    match local_NewIntegrationService yamlConfig bootClient with
    | Err err => Err err
    | Ok yamlIntegration =>
        Ok {| nodeProvider := Some yamlIntegration;
              syncProvider :=
                if SyncEnabled yamlConfig then Some yamlIntegration else None;
              providerType := Type_ config |}
    end
  else
    Ok {| nodeProvider := None; syncProvider := None;
          providerType := Type_ config |}.

(** [StartBackgroundSync]: the provider whose sync worker is started, if
    any. *)
Definition StartBackgroundSync (c : Controller) : option (Provider Dyn) :=
  match syncProvider c with
  | None => None
  | Some p => Some p
  end.

(** [GetProviderStats] returns statistics from the current provider. *)
Definition GetProviderStats (c : Controller) : gmap string (Any Dyn) :=
  match nodeProvider c with
  | None =>
      <["provider_configured" := AnyBool false]>
        (<["provider_type" := AnyString (providerType c)]> ∅)
  | Some p =>
      let stats := GetStats p in
      let stats := <["provider_type" := AnyString (providerType c)]> stats in
      let stats := <["provider_configured" := AnyBool true]> stats in
      <["sync_supported" :=
          AnyBool (match syncProvider c with Some _ => true | None => false end)]>
        stats
  end.

(** [HealthCheck]: the external provider's, when there is one. *)
Definition HealthCheck (c : Controller) : option error :=
  match nodeProvider c with
  | None => None
  | Some p => HealthCheck_ p
  end.

Definition GetProviderType (c : Controller) : string := providerType c.

(** [NewHSMController]: [None] stands for the nil controller. *)
Definition NewHSMController (bootClient : client.Client)
  (hsmConfig : HSMIntegrationConfig) : option Controller :=
  let config := {| Type_ := "hsm"; HSMConfig := Some hsmConfig; YAMLConfig := None |} in
  match NewFlexibleBootScriptController bootClient config with
  | Err _ => None
  | Ok controller => Some controller
  end.

Definition NewYAMLController (bootClient : client.Client)
  (yamlConfig : YAMLIntegrationConfig) : option Controller :=
  let config := {| Type_ := "yaml"; HSMConfig := None; YAMLConfig := Some yamlConfig |} in
  match NewFlexibleBootScriptController bootClient config with
  | Err _ => None
  | Ok controller => Some controller
  end.

End Flexible.

End flexible.

(** ** The legacy handler

    The helpers of [LegacyHandler] that select and name configurations. *)

Module legacy.

Import bootconfiguration.

(** The fields of [BootParametersRequest] that the handler reads. *)
Record BootParametersRequest : Type := {
  Hosts : list string;
  Macs : list string;
  Nids : list string;
  Kernel : string;
  Initrd : string;
  Params : string
}.

(** The conversion [int32(n)] of an [int]. *)
Definition int32 (x : Z) : Z := (x + 2 ^ 31) mod 2 ^ 32 - 2 ^ 31.

(** [fmt.Sprintf] with the verb [%d]. *)
Definition format_int (n : Z) : string := pretty.pretty n.

(** [generateConfigName] generates a name based on the first identifier. *)
Definition generateConfigName (req : BootParametersRequest) : string :=
  match Hosts req with
  | host :: _ => ("legacy-" +:+ ReplaceAll host "." "-")%string
  | [] =>
      match Macs req with
      | mac :: _ => ("legacy-" +:+ ReplaceAll mac ":" "-")%string
      | [] =>
          match Nids req with
          | nid :: _ => ("legacy-nid-" +:+ nid)%string
          | [] =>
              ("legacy-config-"
               +:+ format_int
                     (wrap64 (wrap64 (Z.of_nat (length (Hosts req))
                                      + Z.of_nat (length (Macs req)))
                              + Z.of_nat (length (Nids req)))))%string
          end
      end
  end.

(** [configMatchesIdentifiers]: the loop over the identifiers returns at the
    first one found among the hosts, the MACs, the NIDs (when it parses as
    an integer) or the groups. *)
Fixpoint configMatchesIdentifiers (config : BootConfiguration)
  (identifiers : list string) : bool :=
  match identifiers with
  | [] => false
  | identifier :: rest =>
      if existsb (fun host => String.eqb host identifier)
                 (bootconfiguration.Hosts (Spec config)) then true
      else if existsb (fun mac => String.eqb mac identifier)
                      (MACs (Spec config)) then true
      else if (let (nid, err) := Atoi identifier in
               bool_decide (err = None)
               && existsb (fun configNid => int32 nid =? configNid)
                          (NIDs (Spec config)))%bool then true
      else if existsb (fun group => String.eqb group identifier)
                      (Groups (Spec config)) then true
      else configMatchesIdentifiers config rest
  end.

(** [filterConfigurationsByIdentifiers] appends the matching configurations
    in the order of [configs]. *)
Fixpoint filterConfigurationsByIdentifiers (configs : list BootConfiguration)
  (identifiers : list string) : list BootConfiguration :=
  match configs with
  | [] => []
  | config :: rest =>
      if configMatchesIdentifiers config identifiers
      then config :: filterConfigurationsByIdentifiers rest identifiers
      else filterConfigurationsByIdentifiers rest identifiers
  end.

End legacy.

(** ** Further reference definitions *)

Module Targeting.

Import node bootconfiguration bootscript.

(** The node lists the configured group. *)
Definition groupMatches (n : Node) (configGroup : string) : bool :=
  existsb (String.eqb configGroup) (node.Groups (node.Spec n)).

(** Some entry of one of the four targeting lists matches the node. *)
Definition someEntryMatches (c : BootConfiguration) (n : Node) : bool :=
  let cs := bootconfiguration.Spec c in
  (existsb (Spec.hostMatches n) (Hosts cs)
   || existsb (Spec.macMatches n) (MACs cs)
   || existsb (Spec.nidMatches n) (NIDs cs)
   || existsb (groupMatches n) (bootconfiguration.Groups cs))%bool.

(** The score that the sizes of the lists allow at most. *)
Definition scoreBound (c : BootConfiguration) (n : Node) : Z :=
  let cs := bootconfiguration.Spec c in
  50 * Z.of_nat (length (Hosts cs))
  + 100 * Z.of_nat (length (MACs cs))
  + 75 * Z.of_nat (length (NIDs cs))
  + 25 * (Z.of_nat (length (bootconfiguration.Groups cs))
          * Z.of_nat (length (node.Groups (node.Spec n)))).

End Targeting.

(** ** Example providers

    Stand-ins for the [hsm] and [local] packages in the scenarios of the
    flexible controller: an HSM configuration is its base URL, a YAML
    configuration is the file name with the sync flag, and the local
    service fails on an empty file name. *)

Module SampleProviders.

Import flexible.

Definition service (name : string) : Provider Z :=
  {| resolver := Sample.provider0;
     HealthCheck_ := None;
     GetStats := <["provider_type" := AnyString "stale"]>
                   (<["nodes" := AnyDyn 1]> (<["source" := AnyString name]> ∅)) |}.

#[export] Instance sampleIntegrations : Integrations := {|
  Dyn := Z;
  HSMIntegrationConfig := string;
  YAMLIntegrationConfig := string * bool;
  SyncEnabled := snd;
  YAMLFile := fst;
  hsm_DefaultIntegrationConfig := "http://localhost:27779"%string;
  hsm_NewIntegrationService := fun url _ => service url;
  local_DefaultIntegrationConfig := ("nodes.yaml"%string, false);
  local_NewIntegrationService := fun cfg _ =>
    if String.eqb (fst cfg) "" then Err "reading YAML file: no such file"%string
    else Ok (service (fst cfg))
|}.

Definition emptyStore : client.Client := Sample.store [] [].

End SampleProviders.

(** ** Characters of a string *)

Module Chars.

(** The byte [c] occurs in [s]. *)
Fixpoint has_char (c : ascii) (s : string) : bool :=
  match s with
  | EmptyString => false
  | String d s' => (Ascii.eqb c d || has_char c s')%bool
  end.

End Chars.

(** * Properties *)

(** ** Strings and integers of the Go runtime *)

Section GoFacts.

Local Open Scope string_scope.

Lemma append_cons (x : ascii) (a b : string) : String x a +:+ b = String x (a +:+ b).
Proof. reflexivity. Qed.

Lemma append_assoc (a b c : string) : (a +:+ b) +:+ c = a +:+ (b +:+ c).
Proof.
  induction a as [|x a IH]; [reflexivity|].
  rewrite !append_cons. f_equal. exact IH.
Qed.

Lemma append_empty_r (a : string) : a +:+ "" = a.
Proof.
  induction a as [|x a IH]; [reflexivity|].
  rewrite append_cons. f_equal. exact IH.
Qed.

Lemma strip_prefix_app (p s : string) : strip_prefix p (p +:+ s) = Some s.
Proof.
  induction p as [|x p IH]; [reflexivity|].
  rewrite append_cons. simpl. now rewrite Ascii.eqb_refl.
Qed.

Lemma strip_prefix_Some (p s rest : string) :
  strip_prefix p s = Some rest -> s = p +:+ rest.
Proof.
  revert s; induction p as [|x p IH]; intros s H; simpl in H.
  - now inversion H.
  - destruct s as [|y s]; [discriminate|].
    destruct (Ascii.eqb_spec x y) as [->|]; [|discriminate].
    rewrite append_cons. now rewrite <- (IH _ H).
Qed.

Lemma Contains_refl (s : string) : Contains s s.
Proof. exists "", "". rewrite append_empty_r. reflexivity. Qed.

Lemma Contains_app_r (a s sub : string) : Contains s sub -> Contains (a +:+ s) sub.
Proof.
  intros (u & v & ->). exists (a +:+ u), v. now rewrite append_assoc.
Qed.

Lemma Contains_app_l (s b sub : string) : Contains s sub -> Contains (s +:+ b) sub.
Proof.
  intros (u & v & ->). exists u, (v +:+ b). now rewrite !append_assoc.
Qed.

Lemma Contains_trans (s t u : string) : Contains s t -> Contains t u -> Contains s u.
Proof.
  intros (a & b & ->) Htu. apply Contains_app_r, Contains_app_l, Htu.
Qed.

(** With enough fuel, a template in which the marker occurs is rewritten
    into a text in which the replacement occurs. *)
Lemma replace_from_Contains (old new : string) :
  old <> "" ->
  forall fuel s, (String.length s <= fuel)%nat -> Contains s old ->
  Contains (replace_from fuel s old new) new.
Proof.
  intros Hold. induction fuel as [|fuel IH]; intros s Hlen (a & b & Hs).
  - destruct s; [|simpl in Hlen; lia].
    destruct a; [|discriminate]. destruct old; [congruence | discriminate].
  - simpl. destruct (strip_prefix old s) as [rest|] eqn:Hp.
    + exists "", (replace_from fuel rest old new). reflexivity.
    + destruct a as [|x a].
      * change ("" +:+ old +:+ b) with (old +:+ b) in Hs. subst s.
        rewrite strip_prefix_app in Hp. discriminate.
      * rewrite append_cons in Hs. subst s. simpl in Hlen.
        apply (Contains_app_r (String x "")).
        apply IH; [lia | now exists a, b].
Qed.

Lemma ReplaceAll_Contains (s old new : string) :
  old <> "" -> Contains s old -> Contains (ReplaceAll s old new) new.
Proof.
  intros Hold Hc. unfold ReplaceAll.
  destruct old as [|c old']; [congruence|].
  now apply replace_from_Contains.
Qed.

Local Open Scope Z_scope.

Lemma wrap64_small (x : Z) : - 2 ^ 63 <= x < 2 ^ 63 -> wrap64 x = x.
Proof. intros H. unfold wrap64. rewrite Z.mod_small; lia. Qed.

Lemma wrap64_add_l (x y : Z) : wrap64 (wrap64 x + y) = wrap64 (x + y).
Proof.
  unfold wrap64.
  replace ((x + 2 ^ 63) mod 2 ^ 64 - 2 ^ 63 + y + 2 ^ 63)
    with ((x + 2 ^ 63) mod 2 ^ 64 + y) by lia.
  rewrite Z.add_mod_idemp_l by lia.
  f_equal. f_equal. lia.
Qed.

Lemma wrap64_idem (x : Z) : wrap64 (wrap64 x) = wrap64 x.
Proof.
  rewrite <- (Z.add_0_r (wrap64 x)) at 1. rewrite wrap64_add_l. f_equal. lia.
Qed.

Lemma wrap64_0 : wrap64 0 = 0.
Proof. reflexivity. Qed.

End GoFacts.

(** ** Insertion sort implements the contract of [sort.Slice] *)

Section InsertionSort.
Context {A : Type} (less : A -> A -> bool).

Lemma insert_perm (x : A) (l : list A) : Permutation (x :: l) (sort.insert less x l).
Proof.
  induction l as [|y l IH]; simpl; [reflexivity|].
  destruct (less y x); [|reflexivity].
  rewrite perm_swap. now apply perm_skip.
Qed.

Lemma insertion_sort_perm (l : list A) : Permutation l (sort.insertion_sort less l).
Proof.
  induction l as [|x l IH]; simpl; [reflexivity|].
  rewrite <- insert_perm. now apply perm_skip.
Qed.

Lemma insert_sorted (x : A) (l : list A) :
  sort.strict_weak less ->
  StronglySorted (fun a b => less b a = false) l ->
  StronglySorted (fun a b => less b a = false) (sort.insert less x l).
Proof.
  intros [Hasym Hneg]. induction 1 as [|y l Hs IH Hall]; simpl.
  - repeat constructor.
  - destruct (less y x) eqn:Hyx.
    + constructor; [exact IH|].
      rewrite <- insert_perm. constructor; [now apply Hasym | exact Hall].
    + constructor; [now constructor|].
      constructor; [exact Hyx|].
      eapply Forall_impl; [exact Hall|].
      intros z Hz. simpl in Hz. now apply (Hneg x y z).
Qed.

Lemma insertion_sort_sorted (l : list A) :
  sort.strict_weak less ->
  StronglySorted (fun a b => less b a = false) (sort.insertion_sort less l).
Proof.
  intros Hsw. induction l as [|x l IH]; simpl; [constructor|].
  now apply insert_sorted.
Qed.

End InsertionSort.

#[export] Instance insertion_sorter : sort.Sorter := {|
  sort.Slice := @sort.insertion_sort;
  sort.Slice_perm := @insertion_sort_perm;
  sort.Slice_sorted := @insertion_sort_sorted
|}.

(** The first element of a sorted slice is one of the input that no other
    element is [less] than. *)
Lemma Slice_head {S : sort.Sorter} {A} (less : A -> A -> bool) (l : list A)
  (first : A) (rest : list A) :
  sort.strict_weak less ->
  sort.Slice less l = first :: rest ->
  In first l /\ forall x, In x l -> less x first = false.
Proof.
  intros Hsw Heq.
  pose proof (sort.Slice_perm A less l) as Hperm.
  pose proof (sort.Slice_sorted A less l Hsw) as Hsorted.
  rewrite Heq in Hperm, Hsorted.
  split.
  - eapply Permutation_in; [symmetry; exact Hperm | now left].
  - intros x Hx. eapply Permutation_in in Hx; [|exact Hperm].
    destruct Hx as [<-|Hx].
    + destruct Hsw as [Hasym _]. destruct (less first first) eqn:E; [|reflexivity].
      now rewrite (Hasym _ _ E) in E.
    + apply StronglySorted_inv in Hsorted as [_ Hall].
      rewrite Forall_forall in Hall. apply Hall.
      now apply list_elem_of_In.
Qed.

Lemma Slice_nonempty {S : sort.Sorter} {A} (less : A -> A -> bool) (l : list A) :
  l <> [] -> sort.Slice less l <> [].
Proof.
  intros Hl Heq. pose proof (sort.Slice_perm A less l) as Hperm.
  rewrite Heq in Hperm. apply Permutation_nil_r in Hperm. contradiction.
Qed.

(** ** Scoring *)

Section Scoring.

Import node bootconfiguration bootscript Spec.

(** A loop that adds [k] to the running score for each element satisfying
    [p]. *)
Lemma fold_score_count {A} (p : A -> bool) (k : Z) (l : list A) :
  forall s, wrap64 s = s ->
  fold_left (fun score x => if p x then wrap64 (score + k) else score) l s
  = wrap64 (s + k * count p l).
Proof.
  unfold count. induction l as [|x l IH]; intros s Hs; simpl.
  - rewrite Z.mul_0_r, Z.add_0_r. now symmetry.
  - destruct (p x); simpl length.
    + rewrite IH by apply wrap64_idem. rewrite wrap64_add_l. f_equal. lia.
    + now apply IH.
Qed.

Lemma fold_score_sum {A} (k : Z) (w : A -> Z) (l : list A) :
  forall s, wrap64 s = s ->
  fold_left (fun score x => wrap64 (score + k * w x)) l s
  = wrap64 (s + k * sum_over w l).
Proof.
  induction l as [|x l IH]; intros s Hs; simpl.
  - rewrite Z.mul_0_r, Z.add_0_r. now symmetry.
  - rewrite IH by apply wrap64_idem. rewrite wrap64_add_l. f_equal. lia.
Qed.

Lemma fold_left_ext_wrapped {A} (f g : Z -> A -> Z) (l : list A) :
  (forall s x, wrap64 s = s -> f s x = g s x) ->
  (forall s x, wrap64 (g s x) = g s x) ->
  forall s, wrap64 s = s -> fold_left f l s = fold_left g l s.
Proof.
  intros Hfg Hg. induction l as [|x l IH]; intros s Hs; simpl; [reflexivity|].
  rewrite Hfg by exact Hs. apply IH, Hg.
Qed.

Lemma count_nonneg {A} (p : A -> bool) (l : list A) : 0 <= count p l.
Proof. unfold count. lia. Qed.

Lemma count_nil {A} (p : A -> bool) : count p [] = 0.
Proof. reflexivity. Qed.

Lemma noTargeting_lengths (c : BootConfiguration) :
  noTargeting c =
  ((length (Hosts (bootconfiguration.Spec c)) =? 0)%nat
   && (length (MACs (bootconfiguration.Spec c)) =? 0)%nat
   && (length (NIDs (bootconfiguration.Spec c)) =? 0)%nat
   && (length (bootconfiguration.Groups (bootconfiguration.Spec c)) =? 0)%nat)%bool.
Proof.
  unfold noTargeting.
  destruct (Hosts _), (MACs _), (NIDs _), (bootconfiguration.Groups _); reflexivity.
Qed.

(** The four loops compute the wrapped sum of the contributions. *)
Lemma score_loops (c : BootConfiguration) (n : Node) :
  calculateConfigScore c n
  = if noTargeting c then 1 else wrap64 (matchTotal c n).
Proof.
  unfold calculateConfigScore.
  rewrite (fold_score_count
             (fun host => (matchesPattern host (XName (node.Spec n))
                           || matchesPattern host (Hostname (node.Spec n)))%bool)
             50 _ 0 wrap64_0).
  rewrite (fold_score_count (fun mac => EqualFold mac (BootMAC (node.Spec n)))
             100 _ _ (wrap64_idem _)).
  rewrite (fold_score_count (fun nid => nid =? NID (node.Spec n))
             75 _ _ (wrap64_idem _)).
  rewrite (fold_left_ext_wrapped _
             (fun score g => wrap64 (score + 25 * groupOccurrences n g))).
  2:{ intros s g Hs. now apply fold_score_count. }
  2:{ intros s g. apply wrap64_idem. }
  2:{ apply wrap64_idem. }
  rewrite fold_score_sum by apply wrap64_idem.
  rewrite !wrap64_add_l, Z.add_0_l.
  rewrite <- !(Z.add_assoc (wrap64 _)), !wrap64_add_l.
  fold (hostMatches n) (macMatches n) (nidMatches n).
  rewrite !Z.add_assoc. fold (matchTotal c n).
  rewrite noTargeting_lengths, <- !Bool.andb_assoc.
  destruct ((length (Hosts _) =? 0)%nat && _)%bool eqn:Hno;
    [|now rewrite Bool.andb_false_r].
  rewrite Bool.andb_true_r.
  rewrite !Bool.andb_assoc, <- noTargeting_lengths in Hno.
  unfold noTargeting in Hno. unfold matchTotal.
  destruct (Hosts _); [|discriminate]. destruct (MACs _); [|discriminate].
  destruct (NIDs _); [|discriminate].
  destruct (bootconfiguration.Groups _); [|discriminate].
  reflexivity.
Qed.

End Scoring.

Section ScoringAsStated.

Import node bootconfiguration bootscript Spec.

Lemma count_cons {A} (p : A -> bool) (x : A) (l : list A) :
  count p (x :: l) = (if p x then 1 else 0) + count p l.
Proof. unfold count. simpl. destruct (p x); simpl length; lia. Qed.

Lemma count_zero_existsb {A} (p : A -> bool) (l : list A) :
  count p l = 0 -> existsb p l = false.
Proof.
  induction l as [|x l IH]; [reflexivity|].
  rewrite count_cons. pose proof (count_nonneg p l) as Hge. simpl.
  destruct (p x); [lia|]. intros H. apply IH. lia.
Qed.

Lemma count_le1_existsb {A} (p : A -> bool) (l : list A) :
  count p l <= 1 -> count p l = if existsb p l then 1 else 0.
Proof.
  induction l as [|x l IH]; [reflexivity|].
  rewrite count_cons. pose proof (count_nonneg p l) as Hge. simpl.
  destruct (p x); simpl; intros H.
  - lia.
  - rewrite Z.add_0_l. apply IH. lia.
Qed.

Lemma count_NoDup (g : string) (l : list string) :
  NoDup l -> count (String.eqb g) l <= 1.
Proof.
  induction 1 as [|x l Hx Hnd IH]; [rewrite count_nil; lia|].
  rewrite count_cons. destruct (String.eqb_spec g x) as [->|]; [|lia].
  assert (count (String.eqb x) l = 0); [|lia].
  clear IH Hnd. induction l as [|y l IHl]; [reflexivity|].
  rewrite count_cons. apply not_elem_of_cons in Hx as [Hxy Hx].
  destruct (String.eqb_spec x y); [contradiction|]. now rewrite IHl.
Qed.

Lemma sum_over_indicator {A} (w : A -> Z) (q : A -> bool) (l : list A) :
  (forall x, w x = if q x then 1 else 0) -> sum_over w l = count q l.
Proof.
  intros Hw. induction l as [|x l IH]; [reflexivity|].
  simpl. rewrite count_cons, Hw, IH. reflexivity.
Qed.

Lemma sum_over_nonneg {A} (w : A -> Z) (l : list A) :
  (forall x, 0 <= w x) -> 0 <= sum_over w l.
Proof.
  intros Hw. induction l as [|x l IH]; simpl; [lia|]. specialize (Hw x). lia.
Qed.

Lemma matchTotal_nonneg (c : BootConfiguration) (n : Node) : 0 <= matchTotal c n.
Proof.
  unfold matchTotal.
  pose proof (count_nonneg (hostMatches n) (Hosts (bootconfiguration.Spec c))).
  pose proof (count_nonneg (macMatches n) (MACs (bootconfiguration.Spec c))).
  pose proof (count_nonneg (nidMatches n) (NIDs (bootconfiguration.Spec c))).
  pose proof (sum_over_nonneg (groupOccurrences n)
                (bootconfiguration.Groups (bootconfiguration.Spec c))
                (fun g => count_nonneg _ _)).
  lia.
Qed.

End ScoringAsStated.

(** C3, as amended.  The score of a configuration for a node is the sum, in
    the arithmetic of [int], of 50 per configured host pattern that matches
    the hardware name or the hostname (exactly or as the wildcard), 100 per
    configured MAC entry equal to the boot MAC up to case, 75 per configured
    NID entry equal to the NID of the node, and 25 per pair of a configured
    group and an equal entry of the group list of the node; a configuration
    whose four targeting lists are empty scores exactly 1.  With at most one
    matching MAC entry, no repeated group of the node and a sum within
    [int], this is the score as the specification states it; a MAC match
    together with a group match scores 125. *)
Theorem calculateConfigScore_accumulates :
  (forall c n,
      bootscript.calculateConfigScore c n
      = if Spec.noTargeting c then 1 else wrap64 (Spec.matchTotal c n))
  /\ (forall c n,
         Spec.count (Spec.macMatches n)
                    (bootconfiguration.MACs (bootconfiguration.Spec c)) <= 1 ->
         NoDup (node.Groups (node.Spec n)) ->
         Spec.matchTotal c n < 2 ^ 63 ->
         bootscript.calculateConfigScore c n = Spec.statedScore c n)
  /\ bootscript.calculateConfigScore Sample.macGroupConfig Sample.node0 = 125
  /\ bootscript.calculateConfigScore Sample.catchAll Sample.node0 = 1.
Proof.
  split; [exact score_loops|].
  split; [|split; reflexivity].
  intros c n Hmac Hnd Hfit. rewrite score_loops. unfold Spec.statedScore.
  destruct (Spec.noTargeting c); [reflexivity|].
  rewrite wrap64_small by (pose proof (matchTotal_nonneg c n); lia).
  unfold Spec.matchTotal.
  rewrite (sum_over_indicator (Spec.groupOccurrences n)
             (fun g => existsb (String.eqb g) (node.Groups (node.Spec n)))).
  2:{ intros g. unfold Spec.groupOccurrences. apply count_le1_existsb.
      now apply count_NoDup. }
  rewrite (count_le1_existsb _ _ Hmac).
  destruct (existsb _ _); lia.
Qed.

Lemma calculateConfigScore_accumulates_witness :
  bootscript.calculateConfigScore Sample.macGroupConfig Sample.node0
  = Spec.statedScore Sample.macGroupConfig Sample.node0.
Proof.
  apply (proj1 (proj2 calculateConfigScore_accumulates)).
  - vm_compute. discriminate.
  - apply (bool_decide_unpack _). vm_compute. exact I.
  - reflexivity.
Defined.

(** C3 as stated fails when a configuration lists the boot MAC of the node
    in two spellings: the loop adds 100 for each entry. *)
Lemma calculateConfigScore_counts_each_mac :
  bootscript.calculateConfigScore Sample.twoSpellingsConfig Sample.node0 = 200
  /\ Spec.statedScore Sample.twoSpellingsConfig Sample.node0 = 100
  /\ bootscript.calculateConfigScore Sample.twoSpellingsConfig Sample.node0
     <> Spec.statedScore Sample.twoSpellingsConfig Sample.node0.
Proof. repeat split; vm_compute; congruence. Qed.

(** ** Identifier classification *)

Section Classification.

Import bootscript Spec.

Lemma digit_val_range (c : ascii) : is_digit c = true -> 0 <= digit_val c <= 9.
Proof.
  unfold is_digit, digit_val. intros H.
  apply andb_prop in H as [H1 H2].
  apply Nat.leb_le in H1. apply Nat.leb_le in H2. lia.
Qed.

Lemma decimal_mono (s : string) :
  forall acc v, 0 <= acc -> decimal acc s = Some v -> acc <= v.
Proof.
  induction s as [|c s IH]; intros acc v Hacc H; simpl in H.
  - inversion H. lia.
  - destruct (is_digit c) eqn:Hd; [|discriminate].
    pose proof (digit_val_range c Hd). apply IH in H; lia.
Qed.

Lemma max_uint64_value : max_uint64 = 18446744073709551615.
Proof. reflexivity. Qed.

(** The digit loop of [ParseUint] against the unbounded decimal value. *)
Lemma parse_uint_loop_decimal (s : string) :
  forall n, 0 <= n <= max_uint64 ->
  match parse_uint_loop n s with
  | UintOk v => decimal n s = Some v /\ 0 <= v <= max_uint64
  | UintSyntax => decimal n s = None
  | UintRange => forall v, decimal n s = Some v -> max_uint64 < v
  end.
Proof.
  induction s as [|c s IH]; intros n Hn; simpl.
  - split; [reflexivity | exact Hn].
  - destruct (is_digit c) eqn:Hd; [|reflexivity].
    pose proof (digit_val_range c Hd) as Hdv.
    rewrite max_uint64_value in *.
    change (18446744073709551615 / 10 + 1) with 1844674407370955162.
    destruct (Z.leb_spec 1844674407370955162 n) as [Hcut|Hcut].
    { intros v Hv. apply decimal_mono in Hv; lia. }
    cbv zeta.
    destruct (Z.ltb_spec 18446744073709551615 (n * 10 + digit_val c)) as [Hov|Hov].
    { intros v Hv. apply decimal_mono in Hv; lia. }
    apply IH. lia.
Qed.

(** The test of [parseNodeIdentifier] on the result of [Atoi] accepts the
    strings that denote a non-negative integer. *)
Lemma Atoi_nonNegativeInteger (s : string) :
  (let (nid, err) := Atoi s in (bool_decide (err = None) && (0 <=? nid))%bool)
  = nonNegativeInteger s.
Proof.
  destruct s as [|c rest]; [reflexivity|].
  unfold Atoi, nonNegativeInteger.
  set (neg := Ascii.eqb c "-").
  set (digits := if (Ascii.eqb c "+" || neg)%bool then rest else String c rest).
  unfold ParseUint.
  destruct digits as [|d ds] eqn:Hdigits; [reflexivity|].
  rewrite <- Hdigits. clear Hdigits.
  pose proof (parse_uint_loop_decimal digits 0) as Hp.
  rewrite max_uint64_value in Hp. specialize (Hp ltac:(lia)).
  destruct (parse_uint_loop 0 digits) as [un| |].
  - destruct Hp as [-> Hun].
    unfold max_int64.
    destruct neg; simpl negb; simpl andb.
    + destruct (Z.ltb_spec (2 ^ 63) un); simpl.
      * symmetry. apply Z.eqb_neq. lia.
      * destruct (Z.eqb_spec un 0); [subst; reflexivity|].
        apply Z.leb_gt. lia.
    + destruct (Z.leb_spec (2 ^ 63) un); simpl.
      * symmetry. apply Z.leb_gt. lia.
      * destruct (Z.leb_spec un (2 ^ 63 - 1)); [|lia].
        apply Z.leb_le. lia.
  - rewrite Hp. reflexivity.
  - destruct (decimal 0 digits) as [v|] eqn:Hv.
    + specialize (Hp v eq_refl). unfold max_int64.
      destruct neg; simpl; symmetry.
      * apply Z.eqb_neq. lia.
      * apply Z.leb_gt. lia.
    + destruct neg; reflexivity.
Qed.

Lemma parseNodeIdentifier_Value {V : validation.Package} (identifier : string) :
  Value (parseNodeIdentifier identifier) = identifier.
Proof.
  unfold parseNodeIdentifier.
  destruct (validation.ValidateXName identifier); [reflexivity|].
  destruct (Atoi identifier) as [nid err].
  destruct (bool_decide (err = None) && (0 <=? nid))%bool; [reflexivity|].
  destruct (validation.ValidateMAC identifier); reflexivity.
Qed.

End Classification.

(** C8.  [parseNodeIdentifier] returns, for every string, an identifier
    that carries the string itself and whose type follows the fixed order:
    XName when the string has XName syntax; otherwise NID when it parses as
    a non-negative integer (an optional sign and decimal digits, of a value
    that [int] holds); otherwise MAC when it has MAC syntax; otherwise
    Unknown. *)
Theorem parseNodeIdentifier_classifies {V : validation.Package} (identifier : string) :
  bootscript.parseNodeIdentifier identifier = Spec.classify identifier
  /\ bootscript.Value (bootscript.parseNodeIdentifier identifier) = identifier
  /\ bootscript.Type_ (bootscript.parseNodeIdentifier identifier)
     = (if validation.ValidateXName identifier then bootscript.IdentifierXName
        else if Spec.nonNegativeInteger identifier then bootscript.IdentifierNID
        else if validation.ValidateMAC identifier then bootscript.IdentifierMAC
        else bootscript.IdentifierUnknown).
Proof.
  assert (Hclassify :
            bootscript.parseNodeIdentifier identifier = Spec.classify identifier).
  { unfold bootscript.parseNodeIdentifier, Spec.classify.
    destruct (validation.ValidateXName identifier); [reflexivity|].
    rewrite <- Atoi_nonNegativeInteger.
    destruct (Atoi identifier) as [nid err].
    destruct (bool_decide (err = None) && (0 <=? nid))%bool; [reflexivity|].
    destruct (validation.ValidateMAC identifier); reflexivity. }
  split; [exact Hclassify|].
  rewrite Hclassify. split; reflexivity.
Qed.

(** ** Validation of a boot configuration *)

Section Validation.

Import bootconfiguration.
Context {V : validation.Package}.

Lemma first_invalid_None (valid : string -> bool) (l : list string) :
  first_invalid valid l = None <-> Forall (fun x => valid x = true) l.
Proof.
  induction l as [|x l IH]; simpl.
  - split; [constructor | reflexivity].
  - destruct (valid x) eqn:Hx.
    + rewrite IH. split; [now constructor | now inversion 1].
    + split; [discriminate | inversion 1; congruence].
Qed.

Lemma length_eqb_0 {A} (l : list A) : (length l =? 0)%nat = true <-> l = [].
Proof. destruct l; simpl; split; congruence. Qed.

End Validation.

(** C9.  [Validate] returns no error exactly when the kernel is non-empty
    and a valid URL or path, every host passes the XName-or-default check,
    every MAC is valid, a non-empty initrd is a valid URL or path, the
    priority lies within [0, 100], and one of the four targeting lists is
    non-empty; otherwise it returns an error. *)
Theorem Validate_accepts_iff {V : validation.Package}
  (r : bootconfiguration.BootConfiguration) :
  let s := bootconfiguration.Spec r in
  bootconfiguration.Validate r = None <->
  (bootconfiguration.Kernel s <> ""%string
   /\ validation.ValidateURLOrPath (bootconfiguration.Kernel s) = true
   /\ Forall (fun host => validation.ValidateXNameOrDefault host = true)
             (bootconfiguration.Hosts s)
   /\ Forall (fun mac => validation.ValidateMAC mac = true)
             (bootconfiguration.MACs s)
   /\ (bootconfiguration.Initrd s <> ""%string ->
       validation.ValidateURLOrPathOptional (bootconfiguration.Initrd s) = true)
   /\ 0 <= bootconfiguration.Priority s <= 100
   /\ (bootconfiguration.Hosts s <> [] \/ bootconfiguration.MACs s <> []
       \/ bootconfiguration.NIDs s <> [] \/ bootconfiguration.Groups s <> [])).
Proof.
  intros s. unfold bootconfiguration.Validate. fold s.
  destruct (String.eqb_spec (bootconfiguration.Kernel s) "") as [Hk|Hk].
  { split; [discriminate | intros [H _]; contradiction]. }
  destruct (bootconfiguration.first_invalid _ (bootconfiguration.Hosts s)) eqn:Hh.
  { split; [discriminate|]. intros (_ & _ & H & _).
    apply first_invalid_None in H. congruence. }
  apply first_invalid_None in Hh.
  destruct (bootconfiguration.first_invalid _ (bootconfiguration.MACs s)) eqn:Hm.
  { split; [discriminate|]. intros (_ & _ & _ & H & _).
    apply first_invalid_None in H. congruence. }
  apply first_invalid_None in Hm.
  destruct (validation.ValidateURLOrPath (bootconfiguration.Kernel s)) eqn:Hu; simpl.
  2:{ split; [discriminate | intros (_ & H & _); discriminate]. }
  destruct (negb (String.eqb (bootconfiguration.Initrd s) "")
            && negb (validation.ValidateURLOrPathOptional (bootconfiguration.Initrd s)))%bool
    eqn:Hi.
  { apply andb_prop in Hi as [Hne Hbad].
    apply Bool.negb_true_iff in Hne, Hbad. apply String.eqb_neq in Hne.
    split; [discriminate | intros (_ & _ & _ & _ & H & _)].
    specialize (H Hne). congruence. }
  assert (Hinitrd : bootconfiguration.Initrd s <> ""%string ->
                    validation.ValidateURLOrPathOptional (bootconfiguration.Initrd s) = true).
  { intros Hne. apply String.eqb_neq in Hne. rewrite Hne in Hi. simpl in Hi.
    now apply Bool.negb_false_iff in Hi. }
  destruct (Z.ltb_spec (bootconfiguration.Priority s) 0) as [Hlo|Hlo]; simpl.
  { split; [discriminate | intros (_ & _ & _ & _ & _ & H & _); lia]. }
  destruct (Z.ltb_spec 100 (bootconfiguration.Priority s)) as [Hhi|Hhi]; simpl.
  { split; [discriminate | intros (_ & _ & _ & _ & _ & H & _); lia]. }
  destruct ((length (bootconfiguration.Hosts s) =? 0)%nat
            && (length (bootconfiguration.MACs s) =? 0)%nat
            && (length (bootconfiguration.NIDs s) =? 0)%nat
            && (length (bootconfiguration.Groups s) =? 0)%nat)%bool eqn:Ht.
  - apply andb_prop in Ht as [Ht H4]. apply andb_prop in Ht as [Ht H3].
    apply andb_prop in Ht as [H1 H2].
    apply length_eqb_0 in H1, H2, H3, H4.
    split; [discriminate|].
    intros (_ & _ & _ & _ & _ & _ & [H|[H|[H|H]]]); contradiction.
  - split; [intros _ | reflexivity].
    repeat (split; [assumption || lia|]).
    destruct (bootconfiguration.Hosts s); [|left; discriminate].
    destruct (bootconfiguration.MACs s); [|right; left; discriminate].
    destruct (bootconfiguration.NIDs s); [|right; right; left; discriminate].
    destruct (bootconfiguration.Groups s); [discriminate|].
    right; right; right; discriminate.
Qed.

(** ** Selection of the boot configuration *)

Section Selection.

Import node bootconfiguration bootscript Spec.
Context {S : sort.Sorter}.

Lemma candidatesFor_In (configs : list BootConfiguration) (n : Node)
  (target : string) (cand : configCandidate) :
  In cand (candidatesFor configs n target) <->
  eligible configs n target (config cand)
  /\ score cand = calculateConfigScore (config cand) n.
Proof.
  unfold eligible. induction configs as [|c configs IH]; simpl.
  - tauto.
  - destruct (String.eqb_spec
                (effectiveProfile (Profile (bootconfiguration.Spec c)))
                (effectiveProfile target)) as [Hp|Hp]; simpl.
    + destruct (Z.ltb_spec 0 (calculateConfigScore c n)) as [Hs|Hs]; simpl.
      * rewrite IH. split.
        -- intros [<-|H]; simpl; tauto.
        -- intros [[[Hc|Hin] [Hprof Hpos]] Hsc].
           ++ left. destruct cand; simpl in *. congruence.
           ++ right. tauto.
      * rewrite IH. split; [tauto|].
        intros [[[Hc|Hin] [Hprof Hpos]] Hsc]; [subst c; lia | tauto].
    + rewrite IH. split; [tauto|].
      intros [[[Hc|Hin] [Hprof Hpos]] Hsc]; [subst c; contradiction | tauto].
Qed.

Lemma candidateLess_strict_weak : sort.strict_weak candidateLess.
Proof.
  split.
  - intros a b. unfold candidateLess.
    destruct (Z.eqb_spec (score a) (score b)), (Z.eqb_spec (score b) (score a));
      simpl; try congruence; intros H.
    + apply Z.ltb_lt in H. apply Z.ltb_ge. lia.
    + apply Z.ltb_lt in H. apply Z.ltb_ge. lia.
  - intros a b c. unfold candidateLess.
    destruct (Z.eqb_spec (score b) (score a)), (Z.eqb_spec (score c) (score b)),
      (Z.eqb_spec (score c) (score a));
      simpl; intros H1 H2; apply Z.ltb_ge in H1, H2; apply Z.ltb_ge; lia.
Qed.

Lemma candidateLess_false (a b : configCandidate) :
  candidateLess a b = false ->
  score a < score b
  \/ (score a = score b
      /\ Priority (bootconfiguration.Spec (config a))
         <= Priority (bootconfiguration.Spec (config b))).
Proof.
  unfold candidateLess.
  destruct (Z.eqb_spec (score a) (score b)); simpl; intros H;
    apply Z.ltb_ge in H; lia.
Qed.

Lemma findBestCandidate_Some (configs : list BootConfiguration) (n : Node)
  (target : string) (c : BootConfiguration) :
  findBestCandidate configs n target = Some c -> best configs n target c.
Proof.
  unfold findBestCandidate.
  destruct (length (candidatesFor configs n target) =? 0)%nat; [discriminate|].
  destruct (sort.Slice candidateLess (candidatesFor configs n target))
    as [|first rest] eqn:Hsorted; [discriminate|].
  intros [= <-].
  destruct (Slice_head _ _ _ _ candidateLess_strict_weak Hsorted) as [Hin Hmin].
  apply candidatesFor_In in Hin as [Helig Hscore].
  split; [exact Helig|].
  intros c' Hc'.
  specialize (Hmin {| config := c'; score := calculateConfigScore c' n |}).
  rewrite <- Hscore.
  apply candidateLess_false in Hmin; [exact Hmin|].
  apply candidatesFor_In. simpl. tauto.
Qed.

Lemma findBestCandidate_None (configs : list BootConfiguration) (n : Node)
  (target : string) :
  findBestCandidate configs n target = None ->
  forall c, ~ eligible configs n target c.
Proof.
  unfold findBestCandidate. intros H c Hc.
  assert (Hin : In {| config := c; score := calculateConfigScore c n |}
                   (candidatesFor configs n target)).
  { apply candidatesFor_In. simpl. tauto. }
  destruct (candidatesFor configs n target) as [|x l] eqn:Hcands; [exact Hin|].
  simpl in H.
  destruct (sort.Slice candidateLess (x :: l)) eqn:Hsorted; [|discriminate].
  now apply Slice_nonempty in Hsorted.
Qed.

(** The run of [findBootConfiguration]: the two phases. *)
Lemma findBootConfiguration_run (env : Env) (n : Node) (profile : string)
  (st : State) :
  fst (findBootConfiguration env n profile st) =
  match client.GetBootConfigurations (client_ env) with
  | Err err => Err ("getting boot configurations: " +:+ err)%string
  | Ok configs =>
      match (if specificRequest profile
             then findBestCandidate configs n profile else None) with
      | Some match_ => Ok match_
      | None =>
          match findBestCandidate configs n "default" with
          | Some match_ => Ok match_
          | None => Err ("no matching configurations found for node "
                         +:+ XName (node.Spec n))%string
          end
      end
  end.
Proof.
  unfold findBootConfiguration, clientGetBootConfigurations, bind, record_call,
    ret, specificRequest. simpl.
  destruct (client.GetBootConfigurations (client_ env)) as [configs|e];
    [|reflexivity].
  destruct (if (_ && _)%bool then _ else _); [reflexivity|].
  destruct (findBestCandidate configs n "default"); reflexivity.
Qed.

Lemma effectiveProfile_default (profile : string) :
  specificRequest profile = false -> effectiveProfile profile = "default"%string.
Proof.
  unfold specificRequest, effectiveProfile.
  destruct (String.eqb_spec profile ""); [reflexivity|].
  destruct (String.eqb_spec profile "default"); [now subst | discriminate].
Qed.

Lemma eligible_default (configs : list BootConfiguration) (n : Node)
  (profile : string) (c : BootConfiguration) :
  specificRequest profile = false ->
  eligible configs n profile c -> eligible configs n "default" c.
Proof.
  intros Hspec (Hin & Hprof & Hpos).
  split; [exact Hin|]. split; [|exact Hpos].
  rewrite Hprof. now apply effectiveProfile_default.
Qed.

End Selection.

(** C4.  Once the store has returned the configurations,
    [findBootConfiguration] selects, among the candidates of the phase that
    decides (configurations of the profile with a score above 0), one with
    the highest score and, among those, with the highest priority; it fails
    with the no-match error only when no candidate scores above 0 in any
    phase.  For the node with boot MAC aa:bb:cc:dd:ee:ff and NID 5, the
    configuration targeting the MAC with priority 10 is selected over the
    one targeting NID 5 with priority 90. *)
Theorem findBootConfiguration_selects_best {S : sort.Sorter} :
  (forall env n profile st configs,
      client.GetBootConfigurations (bootscript.client_ env) = Ok configs ->
      match fst (bootscript.findBootConfiguration env n profile st) with
      | Ok c =>
          (Spec.specificRequest profile = true /\ Spec.best configs n profile c)
          \/ ((Spec.specificRequest profile = false
               \/ forall c', ~ Spec.eligible configs n profile c')
              /\ Spec.best configs n "default" c)
      | Err e =>
          e = ("no matching configurations found for node "
               +:+ node.XName (node.Spec n))%string
          /\ (forall c', ~ Spec.eligible configs n profile c')
          /\ (forall c', ~ Spec.eligible configs n "default" c')
      end)
  /\ (forall st t,
         fst (bootscript.findBootConfiguration
                (Sample.at_time
                   (Sample.store [Sample.node0] [Sample.macConfig; Sample.nidConfig]) t)
                Sample.node0 "default" st) = Ok Sample.macConfig)
  /\ bootscript.calculateConfigScore Sample.macConfig Sample.node0 = 100
  /\ bootscript.calculateConfigScore Sample.nidConfig Sample.node0 = 75.
Proof.
  assert (Hgeneral : forall env n profile st configs,
             client.GetBootConfigurations (bootscript.client_ env) = Ok configs ->
             match fst (bootscript.findBootConfiguration env n profile st) with
             | Ok c =>
                 (Spec.specificRequest profile = true
                  /\ Spec.best configs n profile c)
                 \/ ((Spec.specificRequest profile = false
                      \/ forall c', ~ Spec.eligible configs n profile c')
                     /\ Spec.best configs n "default" c)
             | Err e =>
                 e = ("no matching configurations found for node "
                      +:+ node.XName (node.Spec n))%string
                 /\ (forall c', ~ Spec.eligible configs n profile c')
                 /\ (forall c', ~ Spec.eligible configs n "default" c')
             end).
  { intros env n profile st configs Hcfg.
    rewrite findBootConfiguration_run, Hcfg.
    destruct (Spec.specificRequest profile) eqn:Hspec.
    - destruct (bootscript.findBestCandidate configs n profile) as [c|] eqn:Hreq.
      + left. split; [reflexivity|]. now apply findBestCandidate_Some.
      + pose proof (findBestCandidate_None _ _ _ Hreq) as Hnone.
        destruct (bootscript.findBestCandidate configs n "default") as [c|] eqn:Hdef.
        * right. split; [now right|]. now apply findBestCandidate_Some.
        * split; [reflexivity|]. split; [exact Hnone|].
          now apply findBestCandidate_None.
    - destruct (bootscript.findBestCandidate configs n "default") as [c|] eqn:Hdef.
      + right. split; [now left|]. now apply findBestCandidate_Some.
      + pose proof (findBestCandidate_None _ _ _ Hdef) as Hnone.
        split; [reflexivity|]. split; [|exact Hnone].
        intros c' Hc'. apply (Hnone c'). now apply (eligible_default _ _ profile). }
  split; [exact Hgeneral|]. split; [|split; reflexivity].
  intros st t.
  pose proof (Hgeneral
                (Sample.at_time
                   (Sample.store [Sample.node0] [Sample.macConfig; Sample.nidConfig]) t)
                Sample.node0 "default"%string st
                [Sample.macConfig; Sample.nidConfig] eq_refl) as H.
  assert (Hmac : Spec.eligible [Sample.macConfig; Sample.nidConfig] Sample.node0
                   "default" Sample.macConfig).
  { split; [now left|]. split; [reflexivity | vm_compute; reflexivity]. }
  destruct (fst (bootscript.findBootConfiguration _ Sample.node0 "default" st))
    as [c|e].
  - destruct H as [[Hspec _]|[_ [Helig Hbest]]]; [discriminate|].
    destruct Helig as [[<-|[<-|[]]] _]; [reflexivity|].
    specialize (Hbest Sample.macConfig Hmac). vm_compute in Hbest.
    destruct Hbest as [Hlt|[Heq _]]; discriminate.
  - destruct H as (_ & _ & Hnone). now destruct (Hnone Sample.macConfig).
Qed.

Lemma findBootConfiguration_selects_best_witness :
  match fst (bootscript.findBootConfiguration (S := insertion_sorter)
               (Sample.at_time
                  (Sample.store [Sample.node0] [Sample.nidConfig; Sample.macConfig]) 0)
               Sample.node0 "" bootscript.NewBootScriptController) with
  | Ok c =>
      (Spec.specificRequest "" = true
       /\ Spec.best [Sample.nidConfig; Sample.macConfig] Sample.node0 "" c)
      \/ ((Spec.specificRequest "" = false
           \/ forall c', ~ Spec.eligible [Sample.nidConfig; Sample.macConfig]
                           Sample.node0 "" c')
          /\ Spec.best [Sample.nidConfig; Sample.macConfig] Sample.node0 "default" c)
  | Err e =>
      e = ("no matching configurations found for node "
           +:+ node.XName (node.Spec Sample.node0))%string
      /\ (forall c', ~ Spec.eligible [Sample.nidConfig; Sample.macConfig]
                       Sample.node0 "" c')
      /\ (forall c', ~ Spec.eligible [Sample.nidConfig; Sample.macConfig]
                       Sample.node0 "default" c')
  end.
Proof.
  apply (proj1 (findBootConfiguration_selects_best (S := insertion_sorter))).
  reflexivity.
Defined.

(** C5.  A configuration selected by [findBootConfiguration] has the
    effective profile of the request, or, when a non-default profile was
    requested and none of its configurations scored above 0, the profile
    ["default"]; a request for the default profile only selects
    configurations of the default profile, so never one of profile ["gpu"];
    a request for the unknown profile ["burn-in"] is answered with the
    catch-all of the default profile, whose score is 1. *)
Theorem findBootConfiguration_profile_scope {S : sort.Sorter} :
  (forall env n profile st c,
      fst (bootscript.findBootConfiguration env n profile st) = Ok c ->
      bootscript.effectiveProfile
        (bootconfiguration.Profile (bootconfiguration.Spec c))
      = bootscript.effectiveProfile profile
      \/ (Spec.specificRequest profile = true
          /\ (forall configs,
                 client.GetBootConfigurations (bootscript.client_ env) = Ok configs ->
                 forall c', ~ Spec.eligible configs n profile c')
          /\ bootscript.effectiveProfile
               (bootconfiguration.Profile (bootconfiguration.Spec c))
             = "default"%string))
  /\ (forall env n profile st c,
         Spec.specificRequest profile = false ->
         fst (bootscript.findBootConfiguration env n profile st) = Ok c ->
         bootscript.effectiveProfile
           (bootconfiguration.Profile (bootconfiguration.Spec c)) = "default"%string
         /\ bootconfiguration.Profile (bootconfiguration.Spec c) <> "gpu"%string)
  /\ (forall st t,
         fst (bootscript.findBootConfiguration
                (Sample.at_time
                   (Sample.store [Sample.node0] [Sample.gpuConfig; Sample.catchAll]) t)
                Sample.node0 "burn-in" st) = Ok Sample.catchAll)
  /\ bootscript.calculateConfigScore Sample.catchAll Sample.node0 = 1.
Proof.
  assert (Hscope : forall env n profile st c,
             fst (bootscript.findBootConfiguration env n profile st) = Ok c ->
             bootscript.effectiveProfile
               (bootconfiguration.Profile (bootconfiguration.Spec c))
             = bootscript.effectiveProfile profile
             \/ (Spec.specificRequest profile = true
                 /\ (forall configs,
                        client.GetBootConfigurations (bootscript.client_ env)
                        = Ok configs ->
                        forall c', ~ Spec.eligible configs n profile c')
                 /\ bootscript.effectiveProfile
                      (bootconfiguration.Profile (bootconfiguration.Spec c))
                    = "default"%string)).
  { intros env n profile st c. rewrite findBootConfiguration_run.
    destruct (client.GetBootConfigurations (bootscript.client_ env))
      as [configs|e]; [|discriminate].
    destruct (Spec.specificRequest profile) eqn:Hspec.
    - destruct (bootscript.findBestCandidate configs n profile) as [c1|] eqn:Hreq.
      + intros [= <-]. left.
        now destruct (findBestCandidate_Some _ _ _ _ Hreq) as [(_ & Hprof & _) _].
      + destruct (bootscript.findBestCandidate configs n "default") as [c2|] eqn:Hdef;
          [|discriminate].
        intros [= <-]. right. split; [reflexivity|]. split.
        * intros configs' [= <-]. now apply findBestCandidate_None.
        * now destruct (findBestCandidate_Some _ _ _ _ Hdef) as [(_ & Hprof & _) _].
    - destruct (bootscript.findBestCandidate configs n "default") as [c2|] eqn:Hdef;
        [|discriminate].
      intros [= <-]. left.
      destruct (findBestCandidate_Some _ _ _ _ Hdef) as [(_ & Hprof & _) _].
      rewrite Hprof. symmetry. now apply effectiveProfile_default. }
  split; [exact Hscope|].
  split.
  { intros env n profile st c Hspec Hc.
    assert (Hdef : bootscript.effectiveProfile
                     (bootconfiguration.Profile (bootconfiguration.Spec c))
                   = "default"%string).
    { destruct (Hscope env n profile st c Hc) as [Hp|(Hs & _)].
      - rewrite Hp. now apply effectiveProfile_default.
      - congruence. }
    split; [exact Hdef|]. intros Hgpu. rewrite Hgpu in Hdef. discriminate. }
  split; [|reflexivity].
  intros st t. rewrite findBootConfiguration_run. simpl.
  assert (Hall : Spec.eligible [Sample.gpuConfig; Sample.catchAll] Sample.node0
                   "default" Sample.catchAll).
  { split; [now right; left|]. split; [reflexivity | vm_compute; reflexivity]. }
  destruct (bootscript.findBestCandidate [Sample.gpuConfig; Sample.catchAll]
              Sample.node0 "burn-in") as [c|] eqn:Hreq.
  { destruct (findBestCandidate_Some _ _ _ _ Hreq) as [([<-|[<-|[]]] & Hprof & _) _];
      vm_compute in Hprof; discriminate. }
  destruct (bootscript.findBestCandidate [Sample.gpuConfig; Sample.catchAll]
              Sample.node0 "default") as [c|] eqn:Hdef.
  - destruct (findBestCandidate_Some _ _ _ _ Hdef) as [([<-|[<-|[]]] & Hprof & _) _];
      [vm_compute in Hprof; discriminate | reflexivity].
  - now destruct (findBestCandidate_None _ _ _ Hdef Sample.catchAll).
Qed.

Lemma findBootConfiguration_profile_scope_witness :
  bootscript.effectiveProfile
    (bootconfiguration.Profile (bootconfiguration.Spec Sample.catchAll)) = "default"%string
  /\ bootconfiguration.Profile (bootconfiguration.Spec Sample.catchAll) <> "gpu"%string.
Proof.
  apply (proj1 (proj2 (findBootConfiguration_profile_scope (S := insertion_sorter)))
           (Sample.at_time
              (Sample.store [Sample.node0] [Sample.gpuConfig; Sample.catchAll]) 0)
           Sample.node0 "default" bootscript.NewBootScriptController Sample.catchAll).
  - reflexivity.
  - vm_compute. reflexivity.
Defined.

(** ** Script generation *)

Section Generation.

Import node bootconfiguration bootscript Spec.
Context {V : validation.Package} {S : sort.Sorter} {P : Package}.

Lemma resolveNode_run (env : Env) (nid : NodeIdentifier) (st : State) :
  resolveNode env nid st =
  (match client.GetNodes (client_ env) with
   | Err err => Err ("getting nodes: " +:+ err)%string
   | Ok nodes =>
       match scanNodes nid nodes with
       | Some nodeItem => Ok nodeItem
       | None => Err ("node not found for identifier " +:+ Value nid)%string
       end
   end, called st CallGetNodes).
Proof.
  unfold resolveNode, clientGetNodes, bind, record_call, ret, called. simpl.
  destruct (client.GetNodes (client_ env)) as [nodes|e]; [|reflexivity].
  destruct (scanNodes nid nodes); reflexivity.
Qed.

Lemma findBootConfiguration_state (env : Env) (n : Node) (profile : string)
  (st : State) :
  snd (findBootConfiguration env n profile st) = called st CallGetBootConfigurations.
Proof.
  unfold findBootConfiguration, clientGetBootConfigurations, bind, record_call,
    ret, called. simpl.
  destruct (client.GetBootConfigurations (client_ env)) as [configs|e];
    [|reflexivity].
  destruct (if (_ && _)%bool then _ else _); [reflexivity|].
  destruct (findBestCandidate configs n "default"); reflexivity.
Qed.

(** The run of [GenerateBootScript], path by path. *)
Lemma GenerateBootScript_run (env : Env) (identifier profile : string) (st : State) :
  GenerateBootScript env identifier profile st =
  match cache.Get (cache_ st) (now env) (generateCacheKey identifier profile) with
  | Some script => ((script, None), st)
  | None =>
      let st1 := called st CallGetNodes in
      match fst (resolveNode env (parseNodeIdentifier identifier) st) with
      | Err err =>
          ((generateErrorScript ("Node resolution failed: " +:+ err)%string, None), st1)
      | Ok n =>
          let st2 := called st1 CallGetBootConfigurations in
          match fst (findBootConfiguration env n profile st1) with
          | Err _ => ((generateMinimalScript identifier, None), st2)
          | Ok config =>
              match buildIPXEScript config n with
              | Err err =>
                  ((generateErrorScript
                      ("Script generation failed: " +:+ err)%string, None), st2)
              | Ok script =>
                  ((script, None),
                   stored env st2 (generateCacheKey identifier (GetName config))
                          script (XName (node.Spec n)) (GetName config))
              end
          end
      end
  end.
Proof.
  unfold GenerateBootScript at 1. unfold bind at 1. unfold cacheGet at 1.
  destruct (cache.Get (cache_ st) (now env) (generateCacheKey identifier profile));
    [reflexivity|].
  unfold bind at 1.
  rewrite (resolveNode_run env (parseNodeIdentifier identifier) st).
  cbv zeta. unfold fst at 1.
  destruct (match client.GetNodes (client_ env) with
            | Ok _ => _ | Err _ => _ end) as [n|e]; [|reflexivity].
  unfold bind at 1.
  pose proof (findBootConfiguration_state env n profile (called st CallGetNodes)) as Hst.
  destruct (findBootConfiguration env n profile (called st CallGetNodes)) as [r st2].
  simpl in Hst. subst st2. unfold fst at 1.
  destruct r as [config|e]; [|reflexivity].
  destruct (buildIPXEScript config n); reflexivity.
Qed.

(** [GenerateBootScript] never returns an error. *)
Lemma GenerateBootScript_nil_error (env : Env) (identifier profile : string)
  (st : State) :
  snd (fst (GenerateBootScript env identifier profile st)) = None.
Proof.
  rewrite GenerateBootScript_run.
  destruct (cache.Get _ _ _); [reflexivity|]. cbv zeta.
  destruct (fst (resolveNode _ _ _)) as [n|e]; [|reflexivity].
  destruct (fst (findBootConfiguration _ _ _ _)) as [config|e]; [|reflexivity].
  destruct (buildIPXEScript config n); reflexivity.
Qed.

(** A request that finds its key in the cache returns the stored script and
    sends no query. *)
Lemma cache_hit_returns_cached (env : Env) (identifier profile script : string)
  (st : State) :
  cache.Get (cache_ st) (now env) (generateCacheKey identifier profile) = Some script ->
  GenerateBootScript env identifier profile st = ((script, None), st).
Proof. intros Hhit. now rewrite GenerateBootScript_run, Hhit. Qed.

(** The cache round trip: a stored script is returned until it expires;
    other keys are not affected; a miss stays a miss as time passes. *)
Lemma cache_Get_Set (c : cache.ScriptCache) (t t' : Z)
  (key script nodeXName configName : string) :
  t' <= t + cache.ttl c ->
  cache.Get (cache.Set_ c t key script nodeXName configName) t' key = Some script.
Proof.
  intros Ht. unfold cache.Get, cache.Set_. simpl.
  rewrite lookup_insert_eq. simpl.
  destruct (Z.ltb_spec (t + cache.ttl c) t'); [lia | reflexivity].
Qed.

Lemma cache_Get_Set_other (c : cache.ScriptCache) (t t' : Z)
  (key key' script nodeXName configName : string) :
  key <> key' ->
  cache.Get (cache.Set_ c t key script nodeXName configName) t' key'
  = cache.Get c t' key'.
Proof.
  intros Hne. unfold cache.Get, cache.Set_. simpl.
  now rewrite lookup_insert_ne.
Qed.

Lemma cache_Get_later (c : cache.ScriptCache) (t t' : Z) (key : string) :
  t <= t' -> cache.Get c t key = None -> cache.Get c t' key = None.
Proof.
  unfold cache.Get. intros Ht.
  destruct (cache.entries c !! key) as [e|]; [|reflexivity].
  destruct (Z.ltb_spec (cache.ExpiresAt e) t); [|discriminate].
  intros _. destruct (Z.ltb_spec (cache.ExpiresAt e) t'); [reflexivity | lia].
Qed.

End Generation.

(** C1.  [GenerateBootScript] returns a script and a nil error for every
    identifier and profile, on each of its paths: the cached script on a
    cache hit, the error script when resolution fails, the minimal script
    when no configuration matches, the error script when the script cannot
    be built, and the built script otherwise. *)
Theorem GenerateBootScript_never_fails
  {V : validation.Package} {S : sort.Sorter} {P : bootscript.Package}
  (env : bootscript.Env) (identifier profile : string) (st : bootscript.State) :
  snd (fst (bootscript.GenerateBootScript env identifier profile st)) = None
  /\ let script := fst (fst (bootscript.GenerateBootScript env identifier profile st)) in
     let resolved :=
       fst (bootscript.resolveNode env (bootscript.parseNodeIdentifier identifier) st) in
     let found n :=
       fst (bootscript.findBootConfiguration env n profile
              (Spec.called st CallGetNodes)) in
     cache.Get (bootscript.cache_ st) (bootscript.now env)
               (bootscript.generateCacheKey identifier profile) = Some script
     \/ (exists e, resolved = Err e
                   /\ script = bootscript.generateErrorScript
                                 ("Node resolution failed: " +:+ e)%string)
     \/ (exists n e, resolved = Ok n /\ found n = Err e
                     /\ script = bootscript.generateMinimalScript identifier)
     \/ (exists n config e,
            resolved = Ok n /\ found n = Ok config
            /\ bootscript.buildIPXEScript config n = Err e
            /\ script = bootscript.generateErrorScript
                          ("Script generation failed: " +:+ e)%string)
     \/ (exists n config,
            resolved = Ok n /\ found n = Ok config
            /\ bootscript.buildIPXEScript config n = Ok script).
Proof.
  split; [apply GenerateBootScript_nil_error|].
  rewrite GenerateBootScript_run. cbv zeta.
  destruct (cache.Get _ _ _) as [cached|]; [now left|]. right.
  destruct (fst (bootscript.resolveNode _ _ _)) as [n|e];
    [right | left; now exists e].
  destruct (fst (bootscript.findBootConfiguration _ _ _ _)) as [config|e] eqn:Hfound;
    [right | left; now exists n, e].
  destruct (bootscript.buildIPXEScript config n) as [script|e] eqn:Hbuild.
  - right. now exists n, config.
  - left. now exists n, config, e.
Qed.

Section Recovery.

Import node bootconfiguration bootscript Spec.
Context {V : validation.Package} {S : sort.Sorter} {P : Package}.

Lemma generateErrorScript_Contains (msg sub : string) :
  Contains ErrorIPXETemplate "{{.Error}}" -> Contains msg sub ->
  Contains (generateErrorScript msg) sub.
Proof.
  intros Ht Hm. eapply Contains_trans; [|exact Hm].
  now apply ReplaceAll_Contains.
Qed.

Lemma generateMinimalScript_Contains (identifier : string) :
  Contains MinimalIPXETemplate "{{.Identifier}}" ->
  Contains (generateMinimalScript identifier) identifier.
Proof. intros Ht. now apply ReplaceAll_Contains. Qed.

(** No matching configuration: the minimal script. *)
Lemma no_configuration_minimal_script (env : Env) (identifier profile : string)
  (st : State) (n : Node) (e : error) :
  cache.Get (cache_ st) (now env) (generateCacheKey identifier profile) = None ->
  fst (resolveNode env (parseNodeIdentifier identifier) st) = Ok n ->
  fst (findBootConfiguration env n profile (called st CallGetNodes)) = Err e ->
  fst (GenerateBootScript env identifier profile st)
  = (generateMinimalScript identifier, None).
Proof.
  intros Hmiss Hres Hfind. rewrite GenerateBootScript_run, Hmiss. cbv zeta.
  now rewrite Hres, Hfind.
Qed.

(** No matching node: the error script that reports the identifier. *)
Lemma node_not_found_error_script (env : Env) (identifier profile : string)
  (st : State) (nodes : list Node) :
  cache.Get (cache_ st) (now env) (generateCacheKey identifier profile) = None ->
  client.GetNodes (client_ env) = Ok nodes ->
  scanNodes (parseNodeIdentifier identifier) nodes = None ->
  GenerateBootScript env identifier profile st
  = ((generateErrorScript
        ("Node resolution failed: node not found for identifier " +:+ identifier)%string,
      None), called st CallGetNodes).
Proof.
  intros Hmiss Hnodes Hscan. rewrite GenerateBootScript_run, Hmiss. cbv zeta.
  rewrite resolveNode_run, Hnodes, Hscan. simpl.
  now rewrite parseNodeIdentifier_Value.
Qed.

End Recovery.

(** The scenarios below run with the example collaborators. *)
#[local] Existing Instance Sample.sampleValidation.
#[local] Existing Instance Sample.samplePackage.

(** C2, as amended.  On a cache miss, a node without matching configuration
    is answered with the minimal script, which substitutes the raw
    identifier, and a nil error; an identifier that matches no node of the
    inventory is answered with the error script whose message names the raw
    identifier, and a nil error; so identifier 9999 with no matching node
    yields the error script for the message "Node resolution failed: node
    not found for identifier 9999", never a hard error. *)
Theorem GenerateBootScript_recovers
  {V : validation.Package} {S : sort.Sorter} {P : bootscript.Package} :
  (forall env identifier profile st n e,
      cache.Get (bootscript.cache_ st) (bootscript.now env)
                (bootscript.generateCacheKey identifier profile) = None ->
      fst (bootscript.resolveNode env (bootscript.parseNodeIdentifier identifier) st)
      = Ok n ->
      fst (bootscript.findBootConfiguration env n profile
             (Spec.called st CallGetNodes)) = Err e ->
      fst (bootscript.GenerateBootScript env identifier profile st)
      = (bootscript.generateMinimalScript identifier, None)
      /\ (Contains bootscript.MinimalIPXETemplate "{{.Identifier}}" ->
          Contains (bootscript.generateMinimalScript identifier) identifier))
  /\ (forall env identifier profile st nodes,
         cache.Get (bootscript.cache_ st) (bootscript.now env)
                   (bootscript.generateCacheKey identifier profile) = None ->
         client.GetNodes (bootscript.client_ env) = Ok nodes ->
         bootscript.scanNodes (bootscript.parseNodeIdentifier identifier) nodes = None ->
         fst (bootscript.GenerateBootScript env identifier profile st)
         = (bootscript.generateErrorScript
              ("Node resolution failed: node not found for identifier "
               +:+ identifier)%string, None)
         /\ (Contains bootscript.ErrorIPXETemplate "{{.Error}}" ->
             Contains (fst (fst (bootscript.GenerateBootScript env identifier profile st)))
                      identifier))
  /\ (forall env profile st nodes,
         cache.Get (bootscript.cache_ st) (bootscript.now env)
                   (bootscript.generateCacheKey "9999" profile) = None ->
         client.GetNodes (bootscript.client_ env) = Ok nodes ->
         bootscript.scanNodes (bootscript.parseNodeIdentifier "9999") nodes = None ->
         fst (bootscript.GenerateBootScript env "9999" profile st)
         = (bootscript.generateErrorScript
              "Node resolution failed: node not found for identifier 9999", None)).
Proof.
  split; [|split].
  - intros env identifier profile st n e Hmiss Hres Hfind.
    split; [now apply (no_configuration_minimal_script env identifier profile st n e)|].
    apply generateMinimalScript_Contains.
  - intros env identifier profile st nodes Hmiss Hnodes Hscan.
    rewrite (node_not_found_error_script env identifier profile st nodes Hmiss Hnodes Hscan).
    split; [reflexivity|]. intros Ht. simpl.
    apply generateErrorScript_Contains; [exact Ht|].
    apply (Contains_app_r "Node resolution failed: node not found for identifier ").
    apply Contains_refl.
  - intros env profile st nodes Hmiss Hnodes Hscan.
    now rewrite (node_not_found_error_script env "9999" profile st nodes Hmiss Hnodes Hscan).
Qed.

Lemma GenerateBootScript_recovers_witness :
  fst (bootscript.GenerateBootScript
         (Sample.at_time (Sample.store [Sample.node0] [Sample.macConfig]) 0)
         "9999" "" bootscript.NewBootScriptController)
  = (bootscript.generateErrorScript
       "Node resolution failed: node not found for identifier 9999", None).
Proof.
  apply (proj2 (proj2 (GenerateBootScript_recovers
                         (V := Sample.sampleValidation) (S := insertion_sorter)
                         (P := Sample.samplePackage)))
           (Sample.at_time (Sample.store [Sample.node0] [Sample.macConfig]) 0)
           "" bootscript.NewBootScriptController [Sample.node0]).
  - vm_compute. reflexivity.
  - reflexivity.
  - vm_compute. reflexivity.
Defined.

(** C2 as stated fails on the node-not-found path: identifier 9999 with no
    matching node is answered with the error script, which is not the
    minimal script. *)
Lemma unresolved_identifier_gets_error_script :
  fst (bootscript.GenerateBootScript
         (Sample.at_time (Sample.store [Sample.node0] [Sample.macConfig]) 0)
         "9999" "" bootscript.NewBootScriptController)
  = ("#!ipxe echo Boot script error: Node resolution failed: node not found for identifier 9999; exit 1"%string,
     None)
  /\ bootscript.generateMinimalScript "9999"
     = "#!ipxe echo No boot configuration for 9999; exit"%string
  /\ fst (fst (bootscript.GenerateBootScript
                 (Sample.at_time (Sample.store [Sample.node0] [Sample.macConfig]) 0)
                 "9999" "" bootscript.NewBootScriptController))
     <> bootscript.generateMinimalScript "9999".
Proof. repeat split; vm_compute; congruence. Qed.

Section UnknownIdentifier.

Import node bootconfiguration bootscript Spec.
Context {V : validation.Package} {S : sort.Sorter} {P : Package}.

Lemma scanNodes_unknown (nid : NodeIdentifier) (nodes : list Node) :
  Type_ nid = IdentifierUnknown -> scanNodes nid nodes = None.
Proof.
  intros Hu. induction nodes as [|n nodes IH]; [reflexivity|].
  simpl. unfold nodeMatches. rewrite Hu. exact IH.
Qed.

End UnknownIdentifier.

(** C10.  An identifier classified as Unknown matches no node, whatever the
    inventory holds: [resolveNode] returns the node-not-found error, and on
    a cache miss [GenerateBootScript] answers with the error script, after
    the inventory query only: no configuration is looked up and nothing is
    cached. *)
Theorem unknown_identifier_error_script
  {V : validation.Package} {S : sort.Sorter} {P : bootscript.Package}
  (env : bootscript.Env) (identifier profile : string) (st : bootscript.State) :
  bootscript.Type_ (bootscript.parseNodeIdentifier identifier)
  = bootscript.IdentifierUnknown ->
  (forall nodes,
      client.GetNodes (bootscript.client_ env) = Ok nodes ->
      fst (bootscript.resolveNode env (bootscript.parseNodeIdentifier identifier) st)
      = Err ("node not found for identifier " +:+ identifier)%string)
  /\ (cache.Get (bootscript.cache_ st) (bootscript.now env)
                (bootscript.generateCacheKey identifier profile) = None ->
      exists e,
        bootscript.GenerateBootScript env identifier profile st
        = ((bootscript.generateErrorScript ("Node resolution failed: " +:+ e)%string,
            None),
           Spec.called st CallGetNodes)).
Proof.
  intros Hu. split.
  - intros nodes Hnodes. rewrite resolveNode_run, Hnodes.
    rewrite (scanNodes_unknown _ nodes Hu). simpl.
    now rewrite parseNodeIdentifier_Value.
  - intros Hmiss. rewrite GenerateBootScript_run, Hmiss. cbv zeta.
    rewrite resolveNode_run. simpl.
    destruct (client.GetNodes (bootscript.client_ env)) as [nodes|e].
    + rewrite (scanNodes_unknown _ nodes Hu). eexists. reflexivity.
    + eexists. reflexivity.
Qed.

Lemma unknown_identifier_error_script_witness :
  (forall nodes,
      client.GetNodes
        (bootscript.client_
           (Sample.at_time (Sample.store [Sample.node0] [Sample.catchAll]) 0))
      = Ok nodes ->
      fst (bootscript.resolveNode
             (Sample.at_time (Sample.store [Sample.node0] [Sample.catchAll]) 0)
             (bootscript.parseNodeIdentifier "login-node") bootscript.NewBootScriptController)
      = Err "node not found for identifier login-node"%string)
  /\ (cache.Get (bootscript.cache_ bootscript.NewBootScriptController) 0
                (bootscript.generateCacheKey "login-node" "") = None ->
      exists e,
        bootscript.GenerateBootScript
          (Sample.at_time (Sample.store [Sample.node0] [Sample.catchAll]) 0)
          "login-node" "" bootscript.NewBootScriptController
        = ((bootscript.generateErrorScript ("Node resolution failed: " +:+ e)%string,
            None),
           Spec.called bootscript.NewBootScriptController CallGetNodes)).
Proof.
  apply (unknown_identifier_error_script
           (V := Sample.sampleValidation) (S := insertion_sorter)
           (P := Sample.samplePackage)
           (Sample.at_time (Sample.store [Sample.node0] [Sample.catchAll]) 0)
           "login-node" "" bootscript.NewBootScriptController).
  vm_compute. reflexivity.
Defined.

(** ** The cache across two requests *)

Section RepeatedRequest.

Import node bootconfiguration bootscript Spec.
Context {V : validation.Package} {S : sort.Sorter} {P : Package}.

Lemma resolveNode_result (env env' : Env) (nid : NodeIdentifier) (st st' : State) :
  client_ env' = client_ env ->
  fst (resolveNode env' nid st') = fst (resolveNode env nid st).
Proof. intros Hc. rewrite !resolveNode_run, Hc. reflexivity. Qed.

Lemma findBootConfiguration_result (env env' : Env) (n : Node) (profile : string)
  (st st' : State) :
  client_ env' = client_ env ->
  fst (findBootConfiguration env' n profile st')
  = fst (findBootConfiguration env n profile st).
Proof.
  intros Hc. unfold findBootConfiguration, clientGetBootConfigurations, bind,
    record_call, ret. simpl. rewrite Hc.
  destruct (client.GetBootConfigurations (client_ env)) as [configs|e];
    [|reflexivity].
  destruct (if (_ && _)%bool then _ else _); [reflexivity|].
  destruct (findBestCandidate configs n "default"); reflexivity.
Qed.

(** A successful request stores its script under the key of the identifier
    and the configuration name.  A repetition of the request looks the
    script up under the key of the identifier and the profile: when the two
    keys differ it misses, and queries the inventory and the configurations
    again. *)
Lemma repeated_request_misses (env env' : Env) (identifier profile : string)
  (st : State) (n : Node) (config : BootConfiguration) (script : string) :
  client_ env' = client_ env ->
  now env <= now env' ->
  cache.Get (cache_ st) (now env) (generateCacheKey identifier profile) = None ->
  fst (resolveNode env (parseNodeIdentifier identifier) st) = Ok n ->
  fst (findBootConfiguration env n profile (called st CallGetNodes)) = Ok config ->
  buildIPXEScript config n = Ok script ->
  generateCacheKey identifier (GetName config) <> generateCacheKey identifier profile ->
  let st1 := snd (GenerateBootScript env identifier profile st) in
  let r2 := GenerateBootScript env' identifier profile st1 in
  cache.Get (cache_ st1) (now env') (generateCacheKey identifier profile) = None
  /\ fst r2 = (script, None)
  /\ calls (snd r2)
     = calls st ++ [CallGetNodes; CallGetBootConfigurations;
                    CallGetNodes; CallGetBootConfigurations].
Proof.
  intros Hc Ht Hmiss Hres Hfind Hbuild Hkeys. cbv zeta.
  set (st1 := stored env (called (called st CallGetNodes) CallGetBootConfigurations)
                (generateCacheKey identifier (GetName config))
                script (XName (node.Spec n)) (GetName config)).
  assert (Hrun : GenerateBootScript env identifier profile st = ((script, None), st1)).
  { rewrite GenerateBootScript_run, Hmiss. cbv zeta.
    now rewrite Hres, Hfind, Hbuild. }
  rewrite Hrun. cbn [snd].
  assert (Hmiss' : cache.Get (cache_ st1) (now env')
                     (generateCacheKey identifier profile) = None).
  { unfold st1, stored. cbn [cache_]. rewrite cache_Get_Set_other by exact Hkeys.
    now apply (cache_Get_later _ (now env)). }
  split; [exact Hmiss'|].
  rewrite (GenerateBootScript_run env'), Hmiss'. cbv zeta.
  rewrite (resolveNode_result env env' _ st _ Hc), Hres.
  rewrite (findBootConfiguration_result env env' n profile
             (called st CallGetNodes) _ Hc), Hfind, Hbuild.
  split; [reflexivity|].
  unfold st1, stored, called. cbn [snd calls]. rewrite <- !app_assoc. reflexivity.
Qed.

End RepeatedRequest.

(** C6 on the code: the request for node x1000c0s0b0n0 and profile
    "default", answered from the configuration named "by-mac", is repeated
    one second later.  Both answers are the same script, but the script was
    stored under the key of the configuration name, the second lookup under
    the key of the profile misses, and the second request queries the
    inventory and the configurations again. *)
Theorem repeated_request_resolves_again :
  let cl := Sample.store [Sample.node0] [Sample.macConfig; Sample.nidConfig] in
  let r1 := bootscript.GenerateBootScript (Sample.at_time cl 0)
              "x1000c0s0b0n0" "default" bootscript.NewBootScriptController in
  let r2 := bootscript.GenerateBootScript (Sample.at_time cl Sample.second)
              "x1000c0s0b0n0" "default" (snd r1) in
  fst r1 = fst r2
  /\ snd (fst r1) = None
  /\ bootscript.calls (snd r1) = [CallGetNodes; CallGetBootConfigurations]
  /\ bootscript.calls (snd r2)
     = [CallGetNodes; CallGetBootConfigurations;
        CallGetNodes; CallGetBootConfigurations]
  /\ cache.Get (bootscript.cache_ (snd r1)) Sample.second
               (bootscript.generateCacheKey "x1000c0s0b0n0" "default") = None
  /\ cache.Get (bootscript.cache_ (snd r1)) Sample.second
               (bootscript.generateCacheKey "x1000c0s0b0n0" "by-mac")
     = Some (fst (fst r1)).
Proof. cbv zeta. repeat split; vm_compute; reflexivity. Qed.

(** C7 on the code: the flexible controller returns what the first call of
    [GenerateBootScript] returns, whatever the provider.  With an inventory
    that has no node for identifier 9999 and a configured provider that
    would resolve it, the answer is the error script of the first attempt;
    the provider is not consulted, and the minimal script is not
    produced. *)
Theorem provider_fallback_unreachable :
  (forall (V : validation.Package) (S : sort.Sorter) (P : bootscript.Package)
          c env identifier st,
      bootscript.GenerateBootScriptWithFallback c env identifier st
      = bootscript.GenerateBootScript env identifier "" st)
  /\ let env := Sample.at_time (Sample.store [] [Sample.nidConfig]) 0 in
     let r := bootscript.GenerateBootScriptWithFallback Sample.flexible0 env "9999"
                bootscript.NewBootScriptController in
     fst r = ("#!ipxe echo Boot script error: Node resolution failed: node not found for identifier 9999; exit 1"%string,
              None)
     /\ bootscript.calls (snd r) = [CallGetNodes]
     /\ bootscript.ResolveNodeByIdentifier Sample.provider0 "9999" = Ok Sample.node0
     /\ fst (fst r) <> bootscript.generateMinimalScript "9999".
Proof.
  split.
  - intros V S P c env identifier st.
    unfold bootscript.GenerateBootScriptWithFallback, bootscript.bind.
    pose proof (GenerateBootScript_nil_error env identifier "" st) as Hnil.
    destruct (bootscript.GenerateBootScript env identifier "" st)
      as [[script err] st'].
    simpl in Hnil. subst err. reflexivity.
  - cbv zeta. repeat split; vm_compute; congruence.
Qed.

(** * Further properties of the code *)

(** ** Node resolution *)

Section Resolution.

Import node bootscript Spec.

Lemma scanNodes_Some (nid : NodeIdentifier) (nodes : list Node) (n : Node) :
  scanNodes nid nodes = Some n ->
  exists before after,
    nodes = before ++ n :: after
    /\ nodeMatches nid n = true
    /\ Forall (fun m => nodeMatches nid m = false) before.
Proof.
  induction nodes as [|m nodes IH]; simpl; [discriminate|].
  destruct (nodeMatches nid m) eqn:Hm.
  - intros [= <-]. exists [], nodes. repeat split; [exact Hm | constructor].
  - intros H. destruct (IH H) as (before & after & -> & Hn & Hall).
    exists (m :: before), after. repeat split; [exact Hn | now constructor].
Qed.

Lemma scanNodes_None (nid : NodeIdentifier) (nodes : list Node) :
  scanNodes nid nodes = None ->
  Forall (fun m => nodeMatches nid m = false) nodes.
Proof.
  induction nodes as [|m nodes IH]; simpl; [constructor|].
  destruct (nodeMatches nid m) eqn:Hm; [discriminate|].
  intros H. constructor; [exact Hm | now apply IH].
Qed.



End Resolution.

(** X1.  [resolveNode] returns the first node of the inventory, in the order
    the store returned it, whose field selected by the identifier type
    matches; it fails with the store's error when the query fails, and with
    the not-found error when no node matches. *)
Theorem resolveNode_first_match (env : bootscript.Env)
  (nid : bootscript.NodeIdentifier) (st : bootscript.State) :
  match fst (bootscript.resolveNode env nid st) with
  | Ok n =>
      exists before after,
        client.GetNodes (bootscript.client_ env) = Ok (before ++ n :: after)
        /\ bootscript.nodeMatches nid n = true
        /\ Forall (fun m => bootscript.nodeMatches nid m = false) before
  | Err e =>
      (exists err, client.GetNodes (bootscript.client_ env) = Err err
                   /\ e = ("getting nodes: " +:+ err)%string)
      \/ (exists nodes,
             client.GetNodes (bootscript.client_ env) = Ok nodes
             /\ Forall (fun m => bootscript.nodeMatches nid m = false) nodes
             /\ e = ("node not found for identifier "
                     +:+ bootscript.Value nid)%string)
  end.
Proof.
  rewrite resolveNode_run. simpl.
  destruct (client.GetNodes (bootscript.client_ env)) as [nodes|err].
  - destruct (bootscript.scanNodes nid nodes) as [n|] eqn:Hscan.
    + destruct (scanNodes_Some _ _ _ Hscan) as (before & after & -> & Hn & Hall).
      now exists before, after.
    + right. exists nodes. split; [reflexivity|].
      split; [now apply scanNodes_None | reflexivity].
  - left. now exists err.
Qed.



(** X3.  A numeric identifier is compared as an [int] with the [int32] NID
    of each node: a value above the [int32] range resolves to no node. *)
Theorem resolveNode_nid_out_of_range (env : bootscript.Env)
  (nid : bootscript.NodeIdentifier) (st : bootscript.State)
  (nodes : list node.Node) :
  bootscript.Type_ nid = bootscript.IdentifierNID ->
  2 ^ 31 <= fst (Atoi (bootscript.Value nid)) ->
  client.GetNodes (bootscript.client_ env) = Ok nodes ->
  Forall (fun m => - 2 ^ 31 <= node.NID (node.Spec m) < 2 ^ 31) nodes ->
  fst (bootscript.resolveNode env nid st)
  = Err ("node not found for identifier " +:+ bootscript.Value nid)%string.
Proof.
  intros Hty Hbig Hnodes Hrange. rewrite resolveNode_run, Hnodes. simpl.
  assert (Hscan : bootscript.scanNodes nid nodes = None).
  { clear Hnodes. induction Hrange as [|m nodes Hm _ IH]; simpl; [reflexivity|].
    unfold bootscript.nodeMatches at 1. rewrite Hty.
    destruct (Z.eqb_spec (node.NID (node.Spec m))
                (fst (Atoi (bootscript.Value nid)))); [lia | exact IH]. }
  now rewrite Hscan.
Qed.

Lemma resolveNode_nid_out_of_range_witness :
  fst (bootscript.resolveNode
         (Sample.at_time (Sample.store [Sample.node0] []) 0)
         {| bootscript.Value := "4294967301";
            bootscript.Type_ := bootscript.IdentifierNID |}
         bootscript.NewBootScriptController)
  = Err "node not found for identifier 4294967301"%string.
Proof.
  apply (resolveNode_nid_out_of_range
           (Sample.at_time (Sample.store [Sample.node0] []) 0)
           {| bootscript.Value := "4294967301";
              bootscript.Type_ := bootscript.IdentifierNID |}
           bootscript.NewBootScriptController [Sample.node0]).
  - reflexivity.
  - vm_compute. discriminate.
  - reflexivity.
  - constructor; [simpl; lia | constructor].
Defined.

(** ** Bounds of the score *)

Section ScoreBounds.

Import node bootconfiguration bootscript Spec Targeting.

Lemma count_le_length {A} (p : A -> bool) (l : list A) :
  count p l <= Z.of_nat (length l).
Proof.
  induction l as [|x l IH]; [reflexivity|].
  rewrite count_cons. simpl length. destruct (p x); lia.
Qed.

Lemma count_pos_existsb {A} (p : A -> bool) (l : list A) :
  0 < count p l <-> existsb p l = true.
Proof.
  induction l as [|x l IH]; [rewrite count_nil; simpl; split; [lia | discriminate]|].
  rewrite count_cons. pose proof (count_nonneg p l) as Hge. simpl.
  destruct (p x); simpl; [split; [reflexivity | lia]|].
  rewrite <- IH. lia.
Qed.

Lemma sum_over_le {A} (w : A -> Z) (k : Z) (l : list A) :
  (forall x, w x <= k) -> sum_over w l <= Z.of_nat (length l) * k.
Proof.
  intros Hw. induction l as [|x l IH]; [reflexivity|].
  simpl sum_over. simpl length. specialize (Hw x). lia.
Qed.

Lemma sum_over_pos_existsb {A} (w : A -> Z) (q : A -> bool) (l : list A) :
  (forall x, 0 <= w x) -> (forall x, 0 < w x <-> q x = true) ->
  0 < sum_over w l <-> existsb q l = true.
Proof.
  intros Hge Hq. induction l as [|x l IH]; simpl; [split; [lia | discriminate]|].
  pose proof (sum_over_nonneg w l Hge) as Hs. specialize (Hge x).
  rewrite Bool.orb_true_iff, <- IH, <- Hq. lia.
Qed.

Lemma groupOccurrences_pos (n : Node) (g : string) :
  0 < groupOccurrences n g <-> groupMatches n g = true.
Proof. apply count_pos_existsb. Qed.

Lemma matchTotal_le_scoreBound (c : BootConfiguration) (n : Node) :
  matchTotal c n <= scoreBound c n.
Proof.
  unfold matchTotal, scoreBound.
  pose proof (count_le_length (hostMatches n) (Hosts (bootconfiguration.Spec c))).
  pose proof (count_le_length (macMatches n) (MACs (bootconfiguration.Spec c))).
  pose proof (count_le_length (nidMatches n) (NIDs (bootconfiguration.Spec c))).
  pose proof (sum_over_le (groupOccurrences n)
                (Z.of_nat (length (node.Groups (node.Spec n))))
                (bootconfiguration.Groups (bootconfiguration.Spec c))
                (fun g => count_le_length _ _)).
  lia.
Qed.

(** The contributions of the four lists, as far as they are positive. *)
Lemma matchTotal_parts (c : BootConfiguration) (n : Node) :
  let cs := bootconfiguration.Spec c in
  (existsb (hostMatches n) (Hosts cs) = true -> 50 <= matchTotal c n)
  /\ (existsb (macMatches n) (MACs cs) = true -> 100 <= matchTotal c n)
  /\ (existsb (nidMatches n) (NIDs cs) = true -> 75 <= matchTotal c n)
  /\ (existsb (groupMatches n) (bootconfiguration.Groups cs) = true ->
      25 <= matchTotal c n)
  /\ (someEntryMatches c n = false -> matchTotal c n = 0).
Proof.
  cbv zeta. unfold matchTotal, someEntryMatches.
  pose proof (count_nonneg (hostMatches n) (Hosts (bootconfiguration.Spec c))) as Hh.
  pose proof (count_nonneg (macMatches n) (MACs (bootconfiguration.Spec c))) as Hm.
  pose proof (count_nonneg (nidMatches n) (NIDs (bootconfiguration.Spec c))) as Hn.
  pose proof (sum_over_nonneg (groupOccurrences n)
                (bootconfiguration.Groups (bootconfiguration.Spec c))
                (fun g => count_nonneg _ _)) as Hg.
  pose proof (count_pos_existsb (hostMatches n)
                (Hosts (bootconfiguration.Spec c))) as Eh.
  pose proof (count_pos_existsb (macMatches n)
                (MACs (bootconfiguration.Spec c))) as Em.
  pose proof (count_pos_existsb (nidMatches n)
                (NIDs (bootconfiguration.Spec c))) as En.
  pose proof (sum_over_pos_existsb (groupOccurrences n) (groupMatches n)
                (bootconfiguration.Groups (bootconfiguration.Spec c))
                (fun g => count_nonneg _ _) (groupOccurrences_pos n)) as Eg.
  repeat split.
  - intros H. apply Eh in H. lia.
  - intros H. apply Em in H. lia.
  - intros H. apply En in H. lia.
  - intros H. apply Eg in H. lia.
  - intros H. apply Bool.orb_false_iff in H as [H H4].
    apply Bool.orb_false_iff in H as [H H3].
    apply Bool.orb_false_iff in H as [H1 H2].
    destruct (Z.lt_ge_cases 0 (count (hostMatches n)
                                 (Hosts (bootconfiguration.Spec c)))) as [L|L];
      [apply Eh in L; congruence|].
    destruct (Z.lt_ge_cases 0 (count (macMatches n)
                                 (MACs (bootconfiguration.Spec c)))) as [L2|L2];
      [apply Em in L2; congruence|].
    destruct (Z.lt_ge_cases 0 (count (nidMatches n)
                                 (NIDs (bootconfiguration.Spec c)))) as [L3|L3];
      [apply En in L3; congruence|].
    destruct (Z.lt_ge_cases 0 (sum_over (groupOccurrences n)
                                 (bootconfiguration.Groups
                                    (bootconfiguration.Spec c)))) as [L4|L4];
      [apply Eg in L4; congruence|].
    lia.
Qed.

Lemma someEntryMatches_total (c : BootConfiguration) (n : Node) :
  someEntryMatches c n = true -> 25 <= matchTotal c n.
Proof.
  destruct (matchTotal_parts c n) as (H1 & H2 & H3 & H4 & _).
  unfold someEntryMatches. rewrite !Bool.orb_true_iff.
  intros [[[H|H]|H]|H]; [apply H1 in H | apply H2 in H | apply H3 in H
                         | apply H4 in H]; lia.
Qed.

Lemma noTargeting_no_match (c : BootConfiguration) (n : Node) :
  noTargeting c = true -> someEntryMatches c n = false.
Proof.
  unfold noTargeting, someEntryMatches.
  destruct (Hosts _); [|discriminate]. destruct (MACs _); [|discriminate].
  destruct (NIDs _); [|discriminate].
  destruct (bootconfiguration.Groups _); [reflexivity | discriminate].
Qed.

End ScoreBounds.

(** X4.  While the sum of the contributions fits [int], a configuration
    scores 0 exactly when it has a targeting entry and none of its entries
    matches the node; such a configuration is never a candidate. *)
Theorem calculateConfigScore_zero_iff
  (c : bootconfiguration.BootConfiguration) (n : node.Node) :
  Spec.matchTotal c n < 2 ^ 63 ->
  bootscript.calculateConfigScore c n = 0 <->
  Spec.noTargeting c = false /\ Targeting.someEntryMatches c n = false.
Proof.
  intros Hfit. rewrite score_loops.
  destruct (Spec.noTargeting c) eqn:Hno.
  - split; [discriminate | intros [H _]; discriminate].
  - rewrite wrap64_small by (pose proof (matchTotal_nonneg c n); lia).
    split.
    + intros H0. split; [reflexivity|].
      destruct (Targeting.someEntryMatches c n) eqn:Hm; [|reflexivity].
      apply someEntryMatches_total in Hm. lia.
    + intros [_ Hm]. now apply (matchTotal_parts c n).
Qed.

Lemma calculateConfigScore_zero_iff_witness :
  bootscript.calculateConfigScore Sample.gpuConfig Sample.node0 = 0 <->
  Spec.noTargeting Sample.gpuConfig = false
  /\ Targeting.someEntryMatches Sample.gpuConfig Sample.node0 = false.
Proof.
  apply (calculateConfigScore_zero_iff Sample.gpuConfig Sample.node0).
  vm_compute. reflexivity.
Defined.

(** X5.  While the sum of the contributions fits [int], a configuration
    listing the boot MAC of the node (up to case) scores at least 100, one
    listing its NID at least 75, one with a matching host pattern at least
    50, and one listing a group of the node at least 25. *)
Theorem calculateConfigScore_lower_bounds
  (c : bootconfiguration.BootConfiguration) (n : node.Node) :
  Spec.matchTotal c n < 2 ^ 63 ->
  let cs := bootconfiguration.Spec c in
  (existsb (Spec.macMatches n) (bootconfiguration.MACs cs) = true ->
   100 <= bootscript.calculateConfigScore c n)
  /\ (existsb (Spec.nidMatches n) (bootconfiguration.NIDs cs) = true ->
      75 <= bootscript.calculateConfigScore c n)
  /\ (existsb (Spec.hostMatches n) (bootconfiguration.Hosts cs) = true ->
      50 <= bootscript.calculateConfigScore c n)
  /\ (existsb (Targeting.groupMatches n) (bootconfiguration.Groups cs) = true ->
      25 <= bootscript.calculateConfigScore c n).
Proof.
  intros Hfit. cbv zeta.
  destruct (matchTotal_parts c n) as (Hh & Hm & Hn & Hg & _).
  assert (Hscore : forall k, 1 <= k -> k <= Spec.matchTotal c n ->
                             k <= bootscript.calculateConfigScore c n).
  { intros k Hk Hle. rewrite score_loops.
    destruct (Spec.noTargeting c) eqn:Hno.
    - apply (noTargeting_no_match c n) in Hno.
      apply (matchTotal_parts c n) in Hno. lia.
    - rewrite wrap64_small; lia. }
  repeat split; intros H; apply Hscore; auto; lia.
Qed.

Lemma calculateConfigScore_lower_bounds_witness :
  let cs := bootconfiguration.Spec Sample.macGroupConfig in
  (existsb (Spec.macMatches Sample.node0) (bootconfiguration.MACs cs) = true ->
   100 <= bootscript.calculateConfigScore Sample.macGroupConfig Sample.node0)
  /\ (existsb (Spec.nidMatches Sample.node0) (bootconfiguration.NIDs cs) = true ->
      75 <= bootscript.calculateConfigScore Sample.macGroupConfig Sample.node0)
  /\ (existsb (Spec.hostMatches Sample.node0) (bootconfiguration.Hosts cs) = true ->
      50 <= bootscript.calculateConfigScore Sample.macGroupConfig Sample.node0)
  /\ (existsb (Targeting.groupMatches Sample.node0) (bootconfiguration.Groups cs)
      = true ->
      25 <= bootscript.calculateConfigScore Sample.macGroupConfig Sample.node0).
Proof.
  apply (calculateConfigScore_lower_bounds Sample.macGroupConfig Sample.node0).
  vm_compute. reflexivity.
Defined.

(** X6.  The score is bounded by the sizes of the lists: 50 per host entry,
    100 per MAC entry, 75 per NID entry and 25 per pair of a configured
    group and a group of the node.  While this bound fits [int], no addition
    of the loops overflows: the score is 1 for a configuration without
    targeting entries and the exact sum of the contributions otherwise, and
    it is never negative. *)
Theorem calculateConfigScore_within_bound
  (c : bootconfiguration.BootConfiguration) (n : node.Node) :
  Targeting.scoreBound c n < 2 ^ 63 ->
  bootscript.calculateConfigScore c n
  = (if Spec.noTargeting c then 1 else Spec.matchTotal c n)
  /\ 0 <= bootscript.calculateConfigScore c n <= Z.max 1 (Targeting.scoreBound c n).
Proof.
  intros Hfit. pose proof (matchTotal_le_scoreBound c n) as Hle.
  pose proof (matchTotal_nonneg c n) as Hge.
  rewrite score_loops.
  destruct (Spec.noTargeting c); [split; [reflexivity | lia]|].
  rewrite wrap64_small by lia. split; [reflexivity | lia].
Qed.

Lemma calculateConfigScore_within_bound_witness :
  bootscript.calculateConfigScore Sample.nidConfig Sample.node0
  = (if Spec.noTargeting Sample.nidConfig then 1
     else Spec.matchTotal Sample.nidConfig Sample.node0)
  /\ 0 <= bootscript.calculateConfigScore Sample.nidConfig Sample.node0
     <= Z.max 1 (Targeting.scoreBound Sample.nidConfig Sample.node0).
Proof.
  apply (calculateConfigScore_within_bound Sample.nidConfig Sample.node0).
  vm_compute. reflexivity.
Defined.

(** ** Selection: guarantees and validated configurations *)

Section SelectionFacts.

Import node bootconfiguration bootscript Spec Targeting.
Context {V : validation.Package} {S : sort.Sorter}.

Lemma findBootConfiguration_Ok_eligible (env : Env) (n : Node) (profile : string)
  (st : State) (c : BootConfiguration) :
  fst (findBootConfiguration env n profile st) = Ok c ->
  exists configs target,
    client.GetBootConfigurations (client_ env) = Ok configs
    /\ eligible configs n target c.
Proof.
  rewrite findBootConfiguration_run.
  destruct (client.GetBootConfigurations (client_ env)) as [configs|e];
    [|discriminate].
  destruct (if specificRequest profile then _ else _) as [c1|] eqn:Hreq.
  - intros [= <-]. destruct (specificRequest profile); [|discriminate].
    exists configs, profile. split; [reflexivity|].
    now destruct (findBestCandidate_Some _ _ _ _ Hreq).
  - destruct (findBestCandidate configs n "default") as [c2|] eqn:Hdef;
      [|discriminate].
    intros [= <-]. exists configs, "default"%string. split; [reflexivity|].
    now destruct (findBestCandidate_Some _ _ _ _ Hdef).
Qed.

Lemma Validate_has_targeting (c : BootConfiguration) :
  Validate c = None -> noTargeting c = false.
Proof.
  unfold Validate. rewrite noTargeting_lengths.
  destruct (String.eqb _ ""); [discriminate|].
  destruct (first_invalid _ (Hosts _)); [discriminate|].
  destruct (first_invalid _ (MACs _)); [discriminate|].
  destruct (negb (validation.ValidateURLOrPath _)); [discriminate|].
  destruct (negb (String.eqb _ "") && _)%bool; [discriminate|].
  destruct ((_ <? 0) || _)%bool; [discriminate|].
  destruct (_ && _ && _ && _)%bool; [discriminate | reflexivity].
Qed.

Lemma first_invalid_Some (valid : string -> bool) (before after : list string)
  (x : string) :
  Forall (fun y => valid y = true) before -> valid x = false ->
  first_invalid valid (before ++ x :: after) = Some x.
Proof.
  intros Hall Hx. induction Hall as [|y before Hy _ IH]; simpl.
  - now rewrite Hx.
  - now rewrite Hy.
Qed.

End SelectionFacts.

(** X7.  A configuration without targeting entries in the default profile
    makes selection succeed: with such a catch-all in the store,
    [findBootConfiguration] returns a configuration for every node and
    every requested profile. *)
Theorem catch_all_guarantees_match {S : sort.Sorter}
  (env : bootscript.Env) (n : node.Node) (profile : string)
  (st : bootscript.State) (configs : list bootconfiguration.BootConfiguration)
  (c : bootconfiguration.BootConfiguration) :
  client.GetBootConfigurations (bootscript.client_ env) = Ok configs ->
  In c configs ->
  Spec.noTargeting c = true ->
  bootscript.effectiveProfile (bootconfiguration.Profile (bootconfiguration.Spec c))
  = "default"%string ->
  exists selected,
    fst (bootscript.findBootConfiguration env n profile st) = Ok selected
    /\ 1 <= bootscript.calculateConfigScore selected n.
Proof.
  intros Hcfg Hin Hno Hprof.
  assert (Helig : Spec.eligible configs n "default" c).
  { split; [exact Hin|]. split; [exact Hprof|].
    rewrite score_loops, Hno. lia. }
  rewrite findBootConfiguration_run, Hcfg.
  destruct (if Spec.specificRequest profile then _ else _) as [c1|] eqn:Hreq.
  - exists c1. split; [reflexivity|].
    destruct (Spec.specificRequest profile); [|discriminate].
    destruct (findBestCandidate_Some _ _ _ _ Hreq) as [(_ & _ & Hpos) _]. lia.
  - destruct (bootscript.findBestCandidate configs n "default") as [c2|] eqn:Hdef.
    + exists c2. split; [reflexivity|].
      destruct (findBestCandidate_Some _ _ _ _ Hdef) as [(_ & _ & Hpos) _]. lia.
    + now destruct (findBestCandidate_None _ _ _ Hdef c).
Qed.

Lemma catch_all_guarantees_match_witness :
  exists selected,
    fst (bootscript.findBootConfiguration (S := insertion_sorter)
           (Sample.at_time
              (Sample.store [Sample.node0] [Sample.gpuConfig; Sample.catchAll]) 0)
           Sample.node0 "gpu" bootscript.NewBootScriptController) = Ok selected
    /\ 1 <= bootscript.calculateConfigScore selected Sample.node0.
Proof.
  apply (catch_all_guarantees_match (S := insertion_sorter)
           (Sample.at_time
              (Sample.store [Sample.node0] [Sample.gpuConfig; Sample.catchAll]) 0)
           Sample.node0 "gpu" bootscript.NewBootScriptController
           [Sample.gpuConfig; Sample.catchAll] Sample.catchAll).
  - reflexivity.
  - simpl. right. left. reflexivity.
  - reflexivity.
  - reflexivity.
Defined.

(** X8.  A configuration that [Validate] accepts is selected only for a node
    that one of its targeting entries matches: a host pattern, a MAC, a NID
    or a group.  The score 1 of a catch-all is out of reach for it. *)
Theorem validated_configuration_selected_by_match
  {V : validation.Package} {S : sort.Sorter}
  (env : bootscript.Env) (n : node.Node) (profile : string)
  (st : bootscript.State) (c : bootconfiguration.BootConfiguration) :
  bootconfiguration.Validate c = None ->
  fst (bootscript.findBootConfiguration env n profile st) = Ok c ->
  Targeting.someEntryMatches c n = true.
Proof.
  intros Hvalid Hsel.
  destruct (findBootConfiguration_Ok_eligible _ _ _ _ _ Hsel)
    as (configs & target & _ & (_ & _ & Hpos)).
  rewrite score_loops, (Validate_has_targeting c Hvalid) in Hpos.
  destruct (Targeting.someEntryMatches c n) eqn:Hm; [reflexivity|].
  apply (matchTotal_parts c n) in Hm. rewrite Hm, wrap64_0 in Hpos. lia.
Qed.

Lemma validated_configuration_selected_by_match_witness :
  Targeting.someEntryMatches Sample.macConfig Sample.node0 = true.
Proof.
  apply (validated_configuration_selected_by_match
           (V := Sample.sampleValidation) (S := insertion_sorter)
           (Sample.at_time
              (Sample.store [Sample.node0] [Sample.macConfig; Sample.nidConfig]) 0)
           Sample.node0 "" bootscript.NewBootScriptController Sample.macConfig).
  - vm_compute. reflexivity.
  - vm_compute. reflexivity.
Defined.

(** X9.  [Validate] checks the hosts in order, before the MACs, the kernel
    URL, the initrd, the priority and the targeting lists: with a kernel
    given, the error names the first host that fails the XName-or-default
    check, whatever the other fields hold. *)
Theorem Validate_reports_first_invalid_host {V : validation.Package}
  (r : bootconfiguration.BootConfiguration) (before after : list string)
  (host : string) :
  bootconfiguration.Kernel (bootconfiguration.Spec r) <> ""%string ->
  bootconfiguration.Hosts (bootconfiguration.Spec r) = before ++ host :: after ->
  Forall (fun h => validation.ValidateXNameOrDefault h = true) before ->
  validation.ValidateXNameOrDefault host = false ->
  bootconfiguration.Validate r
  = Some ("invalid host XName format: " +:+ host)%string.
Proof.
  intros Hk Hhosts Hbefore Hhost. unfold bootconfiguration.Validate.
  apply String.eqb_neq in Hk. rewrite Hk, Hhosts.
  now rewrite (first_invalid_Some _ before after host Hbefore Hhost).
Qed.

Lemma Validate_reports_first_invalid_host_witness :
  bootconfiguration.Validate (V := Sample.sampleValidation)
    (Sample.mkConfig "two-hosts" ["x1000c0s0b0n0"; "node-7"; "node-8"]
       ["not-a-mac"] [] [] "" 500)
  = Some "invalid host XName format: node-7"%string.
Proof.
  apply (Validate_reports_first_invalid_host (V := Sample.sampleValidation)
           (Sample.mkConfig "two-hosts" ["x1000c0s0b0n0"; "node-7"; "node-8"]
              ["not-a-mac"] [] [] "" 500)
           ["x1000c0s0b0n0"%string] ["node-8"%string] "node-7").
  - discriminate.
  - reflexivity.
  - constructor; [vm_compute; reflexivity | constructor].
  - vm_compute. reflexivity.
Defined.

(** ** Effects and failure handling of script generation *)

Section GenerationEffects.

Import bootscript.
Context {V : validation.Package} {S : sort.Sorter} {P : Package}.

(** The queries of one request. *)
Lemma GenerateBootScript_calls (env : Env) (identifier profile : string) (st : State) :
  exists l,
    calls (snd (GenerateBootScript env identifier profile st)) = calls st ++ l
    /\ (l = [] \/ l = [CallGetNodes]
        \/ l = [CallGetNodes; CallGetBootConfigurations]).
Proof.
  rewrite GenerateBootScript_run.
  destruct (cache.Get _ _ _) as [cached|].
  { exists []. split; [now rewrite app_nil_r | now left]. }
  cbv zeta.
  destruct (fst (resolveNode _ _ _)) as [n|e].
  2:{ exists [CallGetNodes]. split; [reflexivity | now right; left]. }
  exists [CallGetNodes; CallGetBootConfigurations].
  split; [|now right; right].
  destruct (fst (findBootConfiguration _ _ _ _)) as [config|e];
    [destruct (buildIPXEScript config n)|]; simpl; now rewrite <- app_assoc.
Qed.

End GenerationEffects.


(** X11.  A failure of the inventory query is reported in the error script,
    with the store's message after "getting nodes: ", and a nil error. *)
Theorem inventory_failure_error_script
  {V : validation.Package} {S : sort.Sorter} {P : bootscript.Package}
  (env : bootscript.Env) (identifier profile : string) (st : bootscript.State)
  (e : error) :
  cache.Get (bootscript.cache_ st) (bootscript.now env)
            (bootscript.generateCacheKey identifier profile) = None ->
  client.GetNodes (bootscript.client_ env) = Err e ->
  bootscript.GenerateBootScript env identifier profile st
  = ((bootscript.generateErrorScript
        ("Node resolution failed: getting nodes: " +:+ e)%string, None),
     Spec.called st CallGetNodes).
Proof.
  intros Hmiss Hnodes. rewrite GenerateBootScript_run, Hmiss. cbv zeta.
  rewrite resolveNode_run, Hnodes. reflexivity.
Qed.

Lemma inventory_failure_error_script_witness :
  bootscript.GenerateBootScript
    {| bootscript.client_ :=
         {| client.GetNodes := Err "connection refused"%string;
            client.GetBootConfigurations := Ok [Sample.catchAll] |};
       bootscript.now := 0 |}
    "x1000c0s0b0n0" "" bootscript.NewBootScriptController
  = ((bootscript.generateErrorScript
        "Node resolution failed: getting nodes: connection refused", None),
     Spec.called bootscript.NewBootScriptController CallGetNodes).
Proof.
  apply (inventory_failure_error_script
           {| bootscript.client_ :=
                {| client.GetNodes := Err "connection refused"%string;
                   client.GetBootConfigurations := Ok [Sample.catchAll] |};
              bootscript.now := 0 |}
           "x1000c0s0b0n0" "" bootscript.NewBootScriptController
           "connection refused").
  - vm_compute. reflexivity.
  - reflexivity.
Defined.

(** X12.  A failure of the configuration query is not reported: for a
    resolved node the request is answered with the minimal script, exactly
    as when no configuration matches, and nothing is cached. *)
Theorem configuration_failure_minimal_script
  {V : validation.Package} {S : sort.Sorter} {P : bootscript.Package}
  (env : bootscript.Env) (identifier profile : string) (st : bootscript.State)
  (n : node.Node) (e : error) :
  cache.Get (bootscript.cache_ st) (bootscript.now env)
            (bootscript.generateCacheKey identifier profile) = None ->
  fst (bootscript.resolveNode env (bootscript.parseNodeIdentifier identifier) st)
  = Ok n ->
  client.GetBootConfigurations (bootscript.client_ env) = Err e ->
  bootscript.GenerateBootScript env identifier profile st
  = ((bootscript.generateMinimalScript identifier, None),
     Spec.called (Spec.called st CallGetNodes) CallGetBootConfigurations).
Proof.
  intros Hmiss Hres Hcfg. rewrite GenerateBootScript_run, Hmiss. cbv zeta.
  rewrite Hres, findBootConfiguration_run, Hcfg. reflexivity.
Qed.

Lemma configuration_failure_minimal_script_witness :
  bootscript.GenerateBootScript
    {| bootscript.client_ :=
         {| client.GetNodes := Ok [Sample.node0];
            client.GetBootConfigurations := Err "timeout"%string |};
       bootscript.now := 0 |}
    "5" "" bootscript.NewBootScriptController
  = ((bootscript.generateMinimalScript "5", None),
     Spec.called (Spec.called bootscript.NewBootScriptController CallGetNodes)
       CallGetBootConfigurations).
Proof.
  apply (configuration_failure_minimal_script (S := insertion_sorter)
           {| bootscript.client_ :=
                {| client.GetNodes := Ok [Sample.node0];
                   client.GetBootConfigurations := Err "timeout"%string |};
              bootscript.now := 0 |}
           "5" "" bootscript.NewBootScriptController Sample.node0 "timeout").
  - vm_compute. reflexivity.
  - vm_compute. reflexivity.
  - reflexivity.
Defined.

(** X13.  On a cache miss the answer depends on the store, the identifier
    and the profile only: not on the time, the queries sent before, or what
    the cache holds under other keys. *)
Theorem GenerateBootScript_miss_independent_of_state
  {V : validation.Package} {S : sort.Sorter} {P : bootscript.Package}
  (env1 env2 : bootscript.Env) (identifier profile : string)
  (st1 st2 : bootscript.State) :
  bootscript.client_ env1 = bootscript.client_ env2 ->
  cache.Get (bootscript.cache_ st1) (bootscript.now env1)
            (bootscript.generateCacheKey identifier profile) = None ->
  cache.Get (bootscript.cache_ st2) (bootscript.now env2)
            (bootscript.generateCacheKey identifier profile) = None ->
  fst (bootscript.GenerateBootScript env1 identifier profile st1)
  = fst (bootscript.GenerateBootScript env2 identifier profile st2).
Proof.
  intros Hc H1 H2. rewrite !GenerateBootScript_run, H1, H2. cbv zeta.
  rewrite (resolveNode_result env2 env1 _ st2 st1 Hc).
  destruct (fst (bootscript.resolveNode env2 _ st2)) as [n|e]; [|reflexivity].
  rewrite (findBootConfiguration_result env2 env1 n profile
             (Spec.called st2 CallGetNodes) (Spec.called st1 CallGetNodes) Hc).
  destruct (fst (bootscript.findBootConfiguration env2 n profile _)) as [config|e];
    [|reflexivity].
  destruct (bootscript.buildIPXEScript config n); reflexivity.
Qed.

Lemma GenerateBootScript_miss_independent_of_state_witness :
  fst (bootscript.GenerateBootScript
         (Sample.at_time (Sample.store [Sample.node0] [Sample.nidConfig]) 0)
         "5" "" bootscript.NewBootScriptController)
  = fst (bootscript.GenerateBootScript
           (Sample.at_time (Sample.store [Sample.node0] [Sample.nidConfig])
              Sample.second)
           "5" "" (Spec.called bootscript.NewBootScriptController CallGetNodes)).
Proof.
  apply (GenerateBootScript_miss_independent_of_state (S := insertion_sorter)
           (Sample.at_time (Sample.store [Sample.node0] [Sample.nidConfig]) 0)
           (Sample.at_time (Sample.store [Sample.node0] [Sample.nidConfig])
              Sample.second)
           "5" "" bootscript.NewBootScriptController
           (Spec.called bootscript.NewBootScriptController CallGetNodes)).
  - reflexivity.
  - vm_compute. reflexivity.
  - vm_compute. reflexivity.
Defined.

(** X14.  [GenerateBootScriptWithHSM] returns what [GenerateBootScript]
    returns for the empty profile, state included: the first call never
    reports an error, so the HSM is never asked to resolve the
    identifier. *)
Theorem GenerateBootScriptWithHSM_never_consults_HSM
  {V : validation.Package} {S : sort.Sorter} {P : bootscript.Package}
  (c : enhanced.EnhancedBootScriptController) (env : bootscript.Env)
  (identifier : string) (st : bootscript.State) :
  enhanced.GenerateBootScriptWithHSM c env identifier st
  = bootscript.GenerateBootScript env identifier "" st
  /\ forall queried,
       In (CallResolveNodeByIdentifier queried)
          (bootscript.calls
             (snd (enhanced.GenerateBootScriptWithHSM c env identifier st))) ->
       In (CallResolveNodeByIdentifier queried) (bootscript.calls st).
Proof.
  assert (Heq : enhanced.GenerateBootScriptWithHSM c env identifier st
                = bootscript.GenerateBootScript env identifier "" st).
  { unfold enhanced.GenerateBootScriptWithHSM, bootscript.bind.
    pose proof (GenerateBootScript_nil_error env identifier "" st) as Hnil.
    destruct (bootscript.GenerateBootScript env identifier "" st)
      as [[script err] st'].
    simpl in Hnil. subst err. reflexivity. }
  split; [exact Heq|]. intros queried. rewrite Heq.
  destruct (GenerateBootScript_calls env identifier "" st) as (l & Hcalls & Hl).
  rewrite Hcalls, in_app_iff. intros [H|H]; [exact H|].
  destruct Hl as [Hl|[Hl|Hl]]; subst l; simpl in H; intuition discriminate.
Qed.

(** ** Construction of the flexible controller *)

Section FlexibleFacts.

Import flexible.
Context {I : Integrations}.

(** The configuration the YAML service is created with. *)
Lemma NewFlexibleBootScriptController_cases (bootClient : client.Client)
  (config : ProviderConfig) :
  (Type_ config = "hsm"%string
   /\ NewFlexibleBootScriptController bootClient config
      = Ok {| nodeProvider :=
                Some (hsm_NewIntegrationService
                        (default hsm_DefaultIntegrationConfig (HSMConfig config))
                        bootClient);
              syncProvider :=
                Some (hsm_NewIntegrationService
                        (default hsm_DefaultIntegrationConfig (HSMConfig config))
                        bootClient);
              providerType := Type_ config |})
  \/ (Type_ config = "yaml"%string
      /\ NewFlexibleBootScriptController bootClient config
         = match local_NewIntegrationService
                   (default local_DefaultIntegrationConfig (YAMLConfig config))
                   bootClient with
           | Err err => Err err
           | Ok p =>
               Ok {| nodeProvider := Some p;
                     syncProvider :=
                       if SyncEnabled
                            (default local_DefaultIntegrationConfig (YAMLConfig config))
                       then Some p else None;
                     providerType := Type_ config |}
           end)
  \/ (Type_ config <> "hsm"%string /\ Type_ config <> "yaml"%string
      /\ NewFlexibleBootScriptController bootClient config
         = Ok {| nodeProvider := None; syncProvider := None;
                 providerType := Type_ config |}).
Proof.
  unfold NewFlexibleBootScriptController.
  destruct (String.eqb_spec (Type_ config) "hsm") as [Hh|Hh].
  { left. split; [exact Hh|]. now destruct (HSMConfig config). }
  destruct (String.eqb_spec (Type_ config) "yaml") as [Hy|Hy].
  { right. left. split; [exact Hy|]. now destruct (YAMLConfig config). }
  right. right. now repeat split.
Qed.

End FlexibleFacts.

#[local] Existing Instance SampleProviders.sampleIntegrations.

(** X15.  [NewFlexibleBootScriptController] fails only for the provider type
    "yaml", and exactly when the local integration service cannot be
    created from the given configuration (the default one when none is
    given); the error is the service's. *)
Theorem NewFlexibleBootScriptController_fails_iff {I : flexible.Integrations}
  (bootClient : client.Client) (config : flexible.ProviderConfig) (e : error) :
  flexible.NewFlexibleBootScriptController bootClient config = Err e <->
  flexible.Type_ config = "yaml"%string
  /\ flexible.local_NewIntegrationService
       (default flexible.local_DefaultIntegrationConfig (flexible.YAMLConfig config))
       bootClient = Err e.
Proof.
  destruct (NewFlexibleBootScriptController_cases bootClient config)
    as [[Hty ->]|[[Hty ->]|(Hh & Hy & ->)]].
  - split; [discriminate|]. intros [Hyaml _]. congruence.
  - destruct (flexible.local_NewIntegrationService _ bootClient) as [p|err].
    + split; [discriminate | intros [_ H]; discriminate].
    + split; [intros [= ->]; now split | intros [_ [= ->]]; reflexivity].
  - split; [discriminate | intros [Hyaml _]; contradiction].
Qed.

(** X16.  A controller built by [NewFlexibleBootScriptController] reports
    the configured provider type; it has a provider exactly for the types
    "hsm" and "yaml"; its sync provider, when it has one, is its provider;
    and it has a sync provider exactly for "hsm" and for "yaml" with
    synchronization enabled. *)
Theorem NewFlexibleBootScriptController_invariants {I : flexible.Integrations}
  (bootClient : client.Client) (config : flexible.ProviderConfig)
  (c : flexible.Controller) :
  flexible.NewFlexibleBootScriptController bootClient config = Ok c ->
  flexible.GetProviderType c = flexible.Type_ config
  /\ (is_Some (flexible.nodeProvider c) <->
      flexible.Type_ config = "hsm"%string \/ flexible.Type_ config = "yaml"%string)
  /\ (forall p, flexible.syncProvider c = Some p -> flexible.nodeProvider c = Some p)
  /\ (is_Some (flexible.syncProvider c) <->
      flexible.Type_ config = "hsm"%string
      \/ (flexible.Type_ config = "yaml"%string
          /\ flexible.SyncEnabled
               (default flexible.local_DefaultIntegrationConfig
                  (flexible.YAMLConfig config)) = true)).
Proof.
  destruct (NewFlexibleBootScriptController_cases bootClient config)
    as [[Hty ->]|[[Hty ->]|(Hh & Hy & ->)]].
  - intros [= <-]. simpl. repeat split; eauto.
  - destruct (flexible.local_NewIntegrationService _ bootClient) as [p|err];
      [|discriminate].
    intros [= <-]. simpl. split; [reflexivity|]. split; [split; eauto|].
    destruct (flexible.SyncEnabled _) eqn:Hsync.
    + split; [now intros q [= <-]|]. split; eauto.
    + split; [discriminate|]. split.
      * intros [q Hq]. discriminate.
      * intros [Hhsm|[_ Hen]]; [rewrite Hty in Hhsm|]; discriminate.
  - intros [= <-]. simpl. split; [reflexivity|].
    split; [split; [intros [q Hq]; discriminate | intros [H|H]; contradiction]|].
    split; [discriminate|].
    split; [intros [q Hq]; discriminate | intros [H|[H _]]; contradiction].
Qed.

Lemma NewFlexibleBootScriptController_invariants_witness :
  let config := {| flexible.Type_ := "yaml"; flexible.HSMConfig := None;
                   flexible.YAMLConfig := Some ("nodes.yaml"%string, true) |} in
  let c := {| flexible.nodeProvider := Some (SampleProviders.service "nodes.yaml");
              flexible.syncProvider := Some (SampleProviders.service "nodes.yaml");
              flexible.providerType := "yaml" |} in
  flexible.GetProviderType c = flexible.Type_ config
  /\ (is_Some (flexible.nodeProvider c) <->
      flexible.Type_ config = "hsm"%string \/ flexible.Type_ config = "yaml"%string)
  /\ (forall p, flexible.syncProvider c = Some p -> flexible.nodeProvider c = Some p)
  /\ (is_Some (flexible.syncProvider c) <->
      flexible.Type_ config = "hsm"%string
      \/ (flexible.Type_ config = "yaml"%string
          /\ flexible.SyncEnabled
               (default flexible.local_DefaultIntegrationConfig
                  (flexible.YAMLConfig config)) = true)).
Proof.
  cbv zeta.
  apply (NewFlexibleBootScriptController_invariants
           (I := SampleProviders.sampleIntegrations) SampleProviders.emptyStore).
  reflexivity.
Defined.

(** X17.  The statistics of [GetProviderStats] always carry the provider
    type of the controller under "provider_type".  Without a provider they
    hold that key and "provider_configured" (false) and nothing else; with a
    provider they are the provider's statistics in which the controller has
    set "provider_type", "provider_configured" (true) and "sync_supported",
    overwriting what the provider stored under these keys. *)
Theorem GetProviderStats_keys {I : flexible.Integrations} (c : flexible.Controller) :
  let stats := flexible.GetProviderStats c in
  stats !! "provider_type"%string = Some (flexible.AnyString (flexible.providerType c))
  /\ match flexible.nodeProvider c with
     | None =>
         stats !! "provider_configured"%string = Some (flexible.AnyBool false)
         /\ forall k : string,
              k <> "provider_type"%string -> k <> "provider_configured"%string ->
              stats !! k = None
     | Some p =>
         stats !! "provider_configured"%string = Some (flexible.AnyBool true)
         /\ stats !! "sync_supported"%string
            = Some (flexible.AnyBool
                      (match flexible.syncProvider c with
                       | Some _ => true
                       | None => false
                       end))
         /\ forall k : string,
              k <> "provider_type"%string -> k <> "provider_configured"%string ->
              k <> "sync_supported"%string ->
              stats !! k = flexible.GetStats p !! k
     end.
Proof.
  cbv zeta. unfold flexible.GetProviderStats.
  destruct (flexible.nodeProvider c) as [p|].
  - split; [|split; [|split]].
    + rewrite lookup_insert_ne by discriminate.
      rewrite lookup_insert_ne by discriminate. apply lookup_insert_eq.
    + rewrite lookup_insert_ne by discriminate. apply lookup_insert_eq.
    + apply lookup_insert_eq.
    + intros k H1 H2 H3.
      rewrite !lookup_insert_ne by congruence. reflexivity.
  - split; [|split].
    + rewrite lookup_insert_ne by discriminate. apply lookup_insert_eq.
    + apply lookup_insert_eq.
    + intros k H1 H2. rewrite !lookup_insert_ne by congruence.
      apply lookup_empty.
Qed.

(** X18.  [NewHSMController] never returns the nil controller: its
    controller has the HSM service, created from the given configuration,
    as provider and as sync provider, so its health check is the service's
    and background synchronization starts the service's worker.
    [NewYAMLController] returns the nil controller exactly when the local
    service cannot be created. *)
Theorem convenience_constructors {I : flexible.Integrations}
  (bootClient : client.Client) :
  (forall hsmConfig,
      let service := flexible.hsm_NewIntegrationService hsmConfig bootClient in
      exists c,
        flexible.NewHSMController bootClient hsmConfig = Some c
        /\ flexible.GetProviderType c = "hsm"%string
        /\ flexible.nodeProvider c = Some service
        /\ flexible.StartBackgroundSync c = Some service
        /\ flexible.HealthCheck c = flexible.HealthCheck_ service)
  /\ (forall yamlConfig,
         flexible.NewYAMLController bootClient yamlConfig = None <->
         exists e,
           flexible.local_NewIntegrationService yamlConfig bootClient = Err e).
Proof.
  split.
  - intros hsmConfig. cbv zeta. eexists. split; [reflexivity|].
    simpl. repeat split.
  - intros yamlConfig.
    unfold flexible.NewYAMLController, flexible.NewFlexibleBootScriptController.
    simpl.
    destruct (flexible.local_NewIntegrationService yamlConfig bootClient)
      as [p|e].
    + split; [discriminate | intros [e He]; discriminate].
    + split; [intros _; now exists e | reflexivity].
Qed.

(** X19.  An unrecognized provider type is no failure: the controller is
    built without a provider, so it passes the health check, starts no
    background synchronization, reports that no provider is configured, and
    hands no provider to script generation. *)
Theorem unknown_provider_type_basic_controller {I : flexible.Integrations}
  (bootClient : client.Client) (config : flexible.ProviderConfig) :
  flexible.Type_ config <> "hsm"%string ->
  flexible.Type_ config <> "yaml"%string ->
  exists c,
    flexible.NewFlexibleBootScriptController bootClient config = Ok c
    /\ flexible.HealthCheck c = None
    /\ flexible.StartBackgroundSync c = None
    /\ flexible.GetProviderStats c !! "provider_configured"%string
       = Some (flexible.AnyBool false)
    /\ flexible.GetProviderStats c !! "provider_type"%string
       = Some (flexible.AnyString (flexible.Type_ config))
    /\ bootscript.nodeProvider (flexible.asFlexible c) = None.
Proof.
  intros Hh Hy.
  destruct (NewFlexibleBootScriptController_cases bootClient config)
    as [[Hty _]|[[Hty _]|(_ & _ & Hnew)]]; [contradiction | contradiction|].
  eexists. split; [exact Hnew|]. simpl. repeat split.
Qed.

Lemma unknown_provider_type_basic_controller_witness :
  exists c,
    flexible.NewFlexibleBootScriptController SampleProviders.emptyStore
      {| flexible.Type_ := "redfish"; flexible.HSMConfig := None;
         flexible.YAMLConfig := None |} = Ok c
    /\ flexible.HealthCheck c = None
    /\ flexible.StartBackgroundSync c = None
    /\ flexible.GetProviderStats c !! "provider_configured"%string
       = Some (flexible.AnyBool false)
    /\ flexible.GetProviderStats c !! "provider_type"%string
       = Some (flexible.AnyString "redfish")
    /\ bootscript.nodeProvider (flexible.asFlexible c) = None.
Proof.
  apply (unknown_provider_type_basic_controller
           (I := SampleProviders.sampleIntegrations) SampleProviders.emptyStore
           {| flexible.Type_ := "redfish"; flexible.HSMConfig := None;
              flexible.YAMLConfig := None |}); discriminate.
Defined.

(** ** The legacy handler *)

Section LegacyFacts.

Import bootconfiguration legacy Chars.

Local Open Scope string_scope.

Lemma existsb_eqb_In (x : string) (l : list string) :
  existsb (fun y => String.eqb y x) l = true <-> In x l.
Proof.
  rewrite existsb_exists. split.
  - intros (y & Hin & Heq). apply String.eqb_eq in Heq. now subst.
  - intros Hin. exists x. split; [exact Hin | apply String.eqb_refl].
Qed.

Lemma existsb_int32_In (n : Z) (l : list Z) :
  existsb (fun configNid => (int32 n =? configNid)%Z) l = true <-> In (int32 n) l.
Proof.
  rewrite existsb_exists. split.
  - intros (y & Hin & Heq). apply Z.eqb_eq in Heq. now subst.
  - intros Hin. exists (int32 n). split; [exact Hin | apply Z.eqb_refl].
Qed.

Lemma has_char_app (c : ascii) (a b : string) :
  has_char c (a +:+ b) = (has_char c a || has_char c b)%bool.
Proof.
  induction a as [|x a IH]; [reflexivity|].
  rewrite append_cons. simpl. now rewrite IH, Bool.orb_assoc.
Qed.

(** Replacing every occurrence of one byte leaves none behind. *)
Lemma replace_from_char (c : ascii) (new : string) :
  has_char c new = false ->
  forall fuel s, (String.length s <= fuel)%nat ->
  has_char c (replace_from fuel s (String c "") new) = false.
Proof.
  intros Hnew. induction fuel as [|fuel IH]; intros s Hlen.
  - destruct s; [reflexivity | simpl in Hlen; lia].
  - destruct s as [|d s']; [reflexivity|].
    simpl in Hlen. simpl.
    destruct (Ascii.eqb_spec c d) as [->|Hne].
    + rewrite has_char_app, Hnew. apply IH. lia.
    + simpl. apply Ascii.eqb_neq in Hne. rewrite Hne. apply IH. lia.
Qed.

Lemma ReplaceAll_char (c : ascii) (s new : string) :
  has_char c new = false -> has_char c (ReplaceAll s (String c "") new) = false.
Proof. intros Hnew. unfold ReplaceAll. now apply replace_from_char. Qed.

End LegacyFacts.

(** X20.  [configMatchesIdentifiers] holds exactly when one of the
    identifiers is, by exact comparison, a host or a MAC or a group of the
    configuration, or parses as an integer whose conversion to [int32] is
    one of its NIDs. *)
Theorem configMatchesIdentifiers_iff
  (config : bootconfiguration.BootConfiguration) (identifiers : list string) :
  legacy.configMatchesIdentifiers config identifiers = true <->
  exists identifier,
    In identifier identifiers
    /\ (In identifier (bootconfiguration.Hosts (bootconfiguration.Spec config))
        \/ In identifier (bootconfiguration.MACs (bootconfiguration.Spec config))
        \/ (snd (Atoi identifier) = None
            /\ In (legacy.int32 (fst (Atoi identifier)))
                  (bootconfiguration.NIDs (bootconfiguration.Spec config)))
        \/ In identifier (bootconfiguration.Groups (bootconfiguration.Spec config))).
Proof.
  induction identifiers as [|identifier rest IH]; simpl.
  { split; [discriminate | intros (x & [] & _)]. }
  pose proof (existsb_eqb_In identifier
                (bootconfiguration.Hosts (bootconfiguration.Spec config))) as Hh.
  pose proof (existsb_eqb_In identifier
                (bootconfiguration.MACs (bootconfiguration.Spec config))) as Hm.
  pose proof (existsb_eqb_In identifier
                (bootconfiguration.Groups (bootconfiguration.Spec config))) as Hg.
  pose proof (existsb_int32_In (fst (Atoi identifier))
                (bootconfiguration.NIDs (bootconfiguration.Spec config))) as Hn.
  destruct (existsb _ (bootconfiguration.Hosts _)) eqn:Eh.
  { split; [intros _ | reflexivity]. exists identifier.
    split; [now left | left; now apply Hh]. }
  destruct (existsb _ (bootconfiguration.MACs _)) eqn:Em.
  { split; [intros _ | reflexivity]. exists identifier.
    split; [now left | right; left; now apply Hm]. }
  destruct (Atoi identifier) as [nid err] eqn:Eatoi. simpl in Hn.
  destruct (bool_decide (err = None)
            && existsb (fun configNid => legacy.int32 nid =? configNid)
                 (bootconfiguration.NIDs (bootconfiguration.Spec config)))%bool
    eqn:En.
  { split; [intros _ | reflexivity]. exists identifier.
    apply andb_prop in En as [Herr Hex]. apply bool_decide_eq_true in Herr.
    split; [now left|]. right; right; left. rewrite Eatoi. simpl.
    split; [exact Herr | now apply Hn]. }
  destruct (existsb _ (bootconfiguration.Groups _)) eqn:Eg.
  { split; [intros _ | reflexivity]. exists identifier.
    split; [now left | right; right; right; now apply Hg]. }
  rewrite IH. split.
  - intros (x & Hin & Hx). exists x. split; [now right | exact Hx].
  - intros (x & [<-|Hin] & Hx); [|now exists x].
    exfalso. destruct Hx as [H|[H|[[Herr H]|H]]].
    + apply Hh in H. discriminate.
    + apply Hm in H. discriminate.
    + rewrite Eatoi in Herr, H. simpl in Herr, H. apply Hn in H.
      rewrite H, Bool.andb_true_r in En.
      apply bool_decide_eq_false in En. contradiction.
    + apply Hg in H. discriminate.
Qed.

(** X21.  [filterConfigurationsByIdentifiers] returns the configurations
    that match one of the identifiers, each as often and in the order in
    which the store listed them; without identifiers it returns none. *)
Theorem filterConfigurationsByIdentifiers_spec
  (configs : list bootconfiguration.BootConfiguration) (identifiers : list string) :
  legacy.filterConfigurationsByIdentifiers configs identifiers
  = List.filter (fun c => legacy.configMatchesIdentifiers c identifiers) configs
  /\ sublist (legacy.filterConfigurationsByIdentifiers configs identifiers) configs
  /\ (forall c,
         In c (legacy.filterConfigurationsByIdentifiers configs identifiers) <->
         In c configs /\ legacy.configMatchesIdentifiers c identifiers = true)
  /\ legacy.filterConfigurationsByIdentifiers configs [] = [].
Proof.
  split; [|split; [|split]].
  - induction configs as [|c configs IH]; simpl; [reflexivity|].
    now destruct (legacy.configMatchesIdentifiers c identifiers); rewrite IH.
  - induction configs as [|c configs IH]; simpl; [constructor|].
    destruct (legacy.configMatchesIdentifiers c identifiers).
    + now apply sublist_skip.
    + now apply sublist_cons.
  - intros c. induction configs as [|c0 configs IH]; simpl; [tauto|].
    destruct (legacy.configMatchesIdentifiers c0 identifiers) eqn:Hm; simpl;
      rewrite IH; split.
    + intros [<-|[Hin Hc]]; tauto.
    + intros [[<-|Hin] Hc]; tauto.
    + tauto.
    + intros [[<-|Hin] Hc]; [congruence | tauto].
  - induction configs as [|c configs IH]; simpl; [reflexivity | exact IH].
Qed.

(** X22.  The name that [generateConfigName] derives from the first host
    contains no dot, the one derived from the first MAC (when there is no
    host) contains no colon, and the last resort, reached only when the
    three lists are empty, is always "legacy-config-0"; every name starts
    with "legacy-". *)
Theorem generateConfigName_shape (req : legacy.BootParametersRequest) :
  (exists rest, legacy.generateConfigName req = ("legacy-" +:+ rest)%string)
  /\ match legacy.Hosts req, legacy.Macs req, legacy.Nids req with
     | host :: _, _, _ =>
         Chars.has_char "." (legacy.generateConfigName req) = false
     | [], mac :: _, _ =>
         Chars.has_char ":" (legacy.generateConfigName req) = false
     | [], [], nid :: _ =>
         legacy.generateConfigName req = ("legacy-nid-" +:+ nid)%string
     | [], [], [] =>
         legacy.generateConfigName req = "legacy-config-0"%string
     end.
Proof.
  unfold legacy.generateConfigName.
  destruct (legacy.Hosts req) as [|host hosts].
  - destruct (legacy.Macs req) as [|mac macs].
    + destruct (legacy.Nids req) as [|nid nids].
      * split; [now exists "config-0"%string | reflexivity].
      * split; [now exists ("nid-" +:+ nid)%string | reflexivity].
    + split; [now eexists|].
      rewrite has_char_app. rewrite (ReplaceAll_char ":" mac "-" eq_refl).
      reflexivity.
  - split; [now eexists|].
    rewrite has_char_app. rewrite (ReplaceAll_char "." host "-" eq_refl).
    reflexivity.
Qed.

(** ** Templates and resolved nodes *)

Section TemplateFacts.

Local Open Scope string_scope.

Lemma Contains_length (s sub : string) :
  Contains s sub -> (String.length sub <= String.length s)%nat.
Proof.
  intros (a & b & ->). revert sub b. induction a as [|x a IH]; intros sub b.
  - change ("" +:+ sub +:+ b) with (sub +:+ b).
    induction sub as [|y sub IHs]; [simpl; lia|].
    rewrite append_cons. simpl. specialize (IHs). lia.
  - rewrite append_cons. simpl. specialize (IH sub b). lia.
Qed.

(** A text in which the marker does not occur is left as it is. *)
Lemma replace_from_absent (old new : string) (fuel : nat) :
  forall s, ~ Contains s old -> replace_from fuel s old new = s.
Proof.
  induction fuel as [|fuel IH]; intros s Habs; [reflexivity|].
  simpl. destruct (strip_prefix old s) as [rest|] eqn:Hp.
  - exfalso. apply Habs. apply strip_prefix_Some in Hp. subst s.
    now exists "", rest.
  - destruct s as [|c s']; [reflexivity|]. f_equal. apply IH.
    intros Hc. apply Habs. now apply (Contains_app_r (String c "")).
Qed.

Lemma ReplaceAll_absent (s old new : string) :
  ~ Contains s old -> ReplaceAll s old new = s.
Proof.
  intros Habs. unfold ReplaceAll. destruct old; [reflexivity|].
  now apply replace_from_absent.
Qed.

End TemplateFacts.

(** X23.  A template without its marker drops what it is given: the minimal
    script is then the template itself, whatever the identifier, and the
    error script is the template itself, whatever the message. *)
Theorem templates_without_marker {P : bootscript.Package} :
  (~ Contains bootscript.MinimalIPXETemplate "{{.Identifier}}" ->
   forall identifier,
     bootscript.generateMinimalScript identifier = bootscript.MinimalIPXETemplate)
  /\ (~ Contains bootscript.ErrorIPXETemplate "{{.Error}}" ->
      forall errorMsg,
        bootscript.generateErrorScript errorMsg = bootscript.ErrorIPXETemplate).
Proof.
  split; intros Habs x.
  - unfold bootscript.generateMinimalScript. now apply ReplaceAll_absent.
  - unfold bootscript.generateErrorScript. now apply ReplaceAll_absent.
Qed.

Lemma templates_without_marker_witness :
  bootscript.generateMinimalScript
    (P := {| bootscript.MinimalIPXETemplate := "#!ipxe exit";
             bootscript.ErrorIPXETemplate := "#!ipxe echo {{.Error}}";
             bootscript.buildIPXEScript := fun _ _ => Err "unused"%string;
             bootscript.generateCacheKey := fun a b => (a +:+ b)%string |})
    "9999" = "#!ipxe exit"%string.
Proof.
  apply (proj1 (templates_without_marker
                  (P := {| bootscript.MinimalIPXETemplate := "#!ipxe exit";
                           bootscript.ErrorIPXETemplate := "#!ipxe echo {{.Error}}";
                           bootscript.buildIPXEScript :=
                             fun _ _ => Err "unused"%string;
                           bootscript.generateCacheKey :=
                             fun a b => (a +:+ b)%string |}))).
  intros Hc. apply Contains_length in Hc. vm_compute in Hc. lia.
Defined.

Section ResolvedNode.

Import node bootscript.
Context {V : validation.Package}.

Lemma parseNodeIdentifier_NID (identifier : string) :
  Type_ (parseNodeIdentifier identifier) = IdentifierNID ->
  snd (Atoi identifier) = None /\ 0 <= fst (Atoi identifier).
Proof.
  unfold parseNodeIdentifier.
  destruct (validation.ValidateXName identifier); [discriminate|].
  destruct (Atoi identifier) as [nid err]. simpl.
  destruct (bool_decide (err = None) && (0 <=? nid))%bool eqn:Htest.
  - intros _. apply andb_prop in Htest as [Herr Hpos].
    apply bool_decide_eq_true in Herr. apply Z.leb_le in Hpos. now split.
  - destruct (validation.ValidateMAC identifier); discriminate.
Qed.

End ResolvedNode.

(** X24.  The node that [resolveNode] returns for a parsed identifier
    carries the identifier: its XName is the identifier, or its NID is the
    non-negative number the identifier denotes, or its boot MAC equals the
    identifier up to case; an identifier of unknown type resolves to no
    node. *)
Theorem resolved_node_carries_identifier {V : validation.Package}
  (env : bootscript.Env) (identifier : string) (st : bootscript.State)
  (n : node.Node) :
  fst (bootscript.resolveNode env (bootscript.parseNodeIdentifier identifier) st)
  = Ok n ->
  match bootscript.Type_ (bootscript.parseNodeIdentifier identifier) with
  | bootscript.IdentifierXName => node.XName (node.Spec n) = identifier
  | bootscript.IdentifierNID =>
      node.NID (node.Spec n) = fst (Atoi identifier)
      /\ snd (Atoi identifier) = None
      /\ 0 <= node.NID (node.Spec n)
  | bootscript.IdentifierMAC =>
      EqualFold (node.BootMAC (node.Spec n)) identifier = true
  | bootscript.IdentifierUnknown => False
  end.
Proof.
  rewrite resolveNode_run. simpl.
  destruct (client.GetNodes (bootscript.client_ env)) as [nodes|e]; [|discriminate].
  destruct (bootscript.scanNodes _ nodes) as [m|] eqn:Hscan; [|discriminate].
  intros [= ->].
  destruct (scanNodes_Some _ _ _ Hscan) as (_ & _ & _ & Hmatch & _).
  unfold bootscript.nodeMatches in Hmatch.
  rewrite parseNodeIdentifier_Value in Hmatch.
  destruct (bootscript.Type_ (bootscript.parseNodeIdentifier identifier)) eqn:Hty.
  - now apply String.eqb_eq.
  - apply Z.eqb_eq in Hmatch.
    destruct (parseNodeIdentifier_NID identifier Hty) as [Herr Hpos].
    rewrite Hmatch. now repeat split.
  - exact Hmatch.
  - discriminate.
Qed.

Lemma resolved_node_carries_identifier_witness :
  node.NID (node.Spec Sample.node0) = fst (Atoi "+005")
  /\ snd (Atoi "+005") = None
  /\ 0 <= node.NID (node.Spec Sample.node0).
Proof.
  apply (resolved_node_carries_identifier (V := Sample.sampleValidation)
           (Sample.at_time (Sample.store [Sample.node0] []) 0)
           "+005" bootscript.NewBootScriptController Sample.node0).
  vm_compute. reflexivity.
Defined.

(** ** Configurations that are no candidates *)

Section NonCandidates.

Import node bootconfiguration bootscript Spec.
Context {S : sort.Sorter}.

Lemma candidatesFor_app (l1 l2 : list BootConfiguration) (n : Node) (target : string) :
  candidatesFor (l1 ++ l2) n target
  = candidatesFor l1 n target ++ candidatesFor l2 n target.
Proof.
  induction l1 as [|c l1 IH]; simpl; [reflexivity|].
  destruct (negb (String.eqb _ _)); [exact IH|].
  destruct (0 <? calculateConfigScore c n); [simpl; now rewrite IH | exact IH].
Qed.

Lemma findBestCandidate_without (l1 l2 : list BootConfiguration)
  (c : BootConfiguration) (n : Node) (target : string) :
  effectiveProfile (Profile (bootconfiguration.Spec c)) <> effectiveProfile target
  \/ calculateConfigScore c n <= 0 ->
  findBestCandidate (l1 ++ c :: l2) n target = findBestCandidate (l1 ++ l2) n target.
Proof.
  intros Hc. unfold findBestCandidate.
  assert (Hcands : candidatesFor (l1 ++ c :: l2) n target
                   = candidatesFor (l1 ++ l2) n target).
  { rewrite !candidatesFor_app. f_equal. simpl.
    destruct (String.eqb_spec
                (effectiveProfile (Profile (bootconfiguration.Spec c)))
                (effectiveProfile target)) as [Hp|Hp]; simpl; [|reflexivity].
    destruct Hc as [Hc|Hc]; [contradiction|].
    destruct (Z.ltb_spec 0 (calculateConfigScore c n)); [lia | reflexivity]. }
  now rewrite Hcands.
Qed.

End NonCandidates.

(** X25.  A configuration that is no candidate does not influence the
    selection: one whose effective profile is neither the requested one nor
    "default", or whose score for the node is not above 0, can be taken out
    of the store without changing what [findBootConfiguration] returns. *)
Theorem non_candidate_is_irrelevant {S : sort.Sorter}
  (env1 env2 : bootscript.Env) (n : node.Node) (profile : string)
  (st1 st2 : bootscript.State)
  (l1 l2 : list bootconfiguration.BootConfiguration)
  (c : bootconfiguration.BootConfiguration) :
  client.GetBootConfigurations (bootscript.client_ env1) = Ok (l1 ++ c :: l2) ->
  client.GetBootConfigurations (bootscript.client_ env2) = Ok (l1 ++ l2) ->
  (bootscript.effectiveProfile (bootconfiguration.Profile (bootconfiguration.Spec c))
   <> bootscript.effectiveProfile profile
   /\ bootscript.effectiveProfile
        (bootconfiguration.Profile (bootconfiguration.Spec c)) <> "default"%string)
  \/ bootscript.calculateConfigScore c n <= 0 ->
  fst (bootscript.findBootConfiguration env1 n profile st1)
  = fst (bootscript.findBootConfiguration env2 n profile st2).
Proof.
  intros H1 H2 Hc. rewrite !findBootConfiguration_run, H1, H2.
  rewrite (findBestCandidate_without l1 l2 c n "default").
  2:{ destruct Hc as [[_ Hd]|Hs]; [now left | now right]. }
  destruct (Spec.specificRequest profile); [|reflexivity].
  rewrite (findBestCandidate_without l1 l2 c n profile).
  2:{ destruct Hc as [[Hp _]|Hs]; [now left | now right]. }
  reflexivity.
Qed.

Lemma non_candidate_is_irrelevant_witness :
  fst (bootscript.findBootConfiguration (S := insertion_sorter)
         (Sample.at_time
            (Sample.store [Sample.node0]
               ([Sample.nidConfig] ++ Sample.gpuConfig :: [Sample.macConfig])) 0)
         Sample.node0 "" bootscript.NewBootScriptController)
  = fst (bootscript.findBootConfiguration (S := insertion_sorter)
           (Sample.at_time
              (Sample.store [Sample.node0] ([Sample.nidConfig] ++ [Sample.macConfig])) 0)
           Sample.node0 "" bootscript.NewBootScriptController).
Proof.
  apply (non_candidate_is_irrelevant (S := insertion_sorter)
           (Sample.at_time
              (Sample.store [Sample.node0]
                 ([Sample.nidConfig] ++ Sample.gpuConfig :: [Sample.macConfig])) 0)
           (Sample.at_time
              (Sample.store [Sample.node0] ([Sample.nidConfig] ++ [Sample.macConfig])) 0)
           Sample.node0 "" bootscript.NewBootScriptController
           bootscript.NewBootScriptController
           [Sample.nidConfig] [Sample.macConfig] Sample.gpuConfig).
  - reflexivity.
  - reflexivity.
  - left. split; vm_compute; discriminate.
Defined.
